(** * OCRAgentGPT4O: the GPT-4o OCR backend

    A shallow embedding of
    [unstructured/partition/utils/ocr_models/gpt4o_ocr.py]
    and the properties its specification states about it.

    The agent is a thin layer over collaborators that live outside the
    module: PIL (images), [base64], [json], the OpenAI client, the
    layout types of [unstructured_inference] and two enumerations of
    [unstructured].  They are gathered in the class [Collaborators]; the
    code of the agent itself is translated line by line on top of it.

    Python objects that the code shares by reference (PIL images) live in
    a store; what the code does to the outside (encoding an image,
    resizing, calling the service, logging) is recorded in a trace. *)

From stdpp Require Import base option list strings gmap.
From Stdlib Require Import ZArith QArith Lia Ascii.

Local Open Scope string_scope.
Local Open Scope Z_scope.

(** ** Python values *)

(** The values [json.loads] produces.  A [dict] keeps its items in
    insertion order; a [float] is kept as its literal, nothing in this
    module looks inside one.  A [str] is a [string], one [ascii] standing
    for one character. *)
#[local] Unset Elimination Schemes.
Inductive pyval : Type :=
| PNone
| PBool (b : bool)
| PInt (n : Z)
| PFloat (lit : string)
| PStr (s : string)
| PList (items : list pyval)
| PDict (items : list (string * pyval)).
#[local] Set Elimination Schemes.

(** Exceptions, by class, with their message. [NoSuchObject] is the
    model's own: a reference that is not in the store, which no Python
    name can hold. *)
Inductive exn : Type :=
| AssertionError (msg : string)
| ValueError (msg : string)
| TypeError (msg : string)
| IndexError (msg : string)
| ExternalError (origin : string) (msg : string)
| NoSuchObject.

Definition py_type_name (v : pyval) : string :=
  match v with
  | PNone => "NoneType"
  | PBool _ => "bool"
  | PInt _ => "int"
  | PFloat _ => "float"
  | PStr _ => "str"
  | PList _ => "list"
  | PDict _ => "dict"
  end.

(** [isinstance(v, dict)] *)
Definition isinstance_dict (v : pyval) : bool :=
  match v with PDict _ => true | _ => false end.

(** [not content] for [content : Optional[str]] *)
Definition py_not (content : option string) : bool :=
  match content with
  | None => true
  | Some s => if decide (s = "") then true else false
  end.

(** [list(xs)[0]] *)
Definition index0 {A : Type} (xs : list A) : exn + A :=
  match xs with
  | [] => inl (IndexError "list index out of range")
  | x :: _ => inr x
  end.

(** [d.values()] of a dict given by its items *)
Definition dict_values (d : list (string * pyval)) : list pyval := d.*2.

(** The iteration protocol, as [enumerate(v)] and a comprehension use it:
    a list yields its items, a str its characters, a dict its keys;
    [None], booleans and numbers are not iterable. *)
Definition py_iter (v : pyval) : exn + list pyval :=
  match v with
  | PList items => inr items
  | PStr s => inr ((fun c => PStr (String c EmptyString)) <$> String.list_ascii_of_string s)
  | PDict items => inr (PStr <$> items.*1)
  | _ => inl (TypeError (String.append "'" (String.append (py_type_name v) "' object is not iterable")))
  end.

(** [enumerate(xs)] *)
Definition enumerate {A : Type} (xs : list A) : list (Z * A) :=
  imap (fun i x => (Z.of_nat i, x)) xs.

(** [int(q)]: truncation toward zero.  The one use is [int(n * 0.75)],
    whose float product is exact (0.75 is 3/4, [n] a size in pixels). *)
Definition py_int (q : Q) : Z := Z.quot (Qnum q) (Z.pos (Qden q)).

(** How a call ends: it returns, it raises, or the model stopped
    following it ([OutOfFuel], for the one loop that has no bound). *)
Inductive outcome (A : Type) : Type :=
| Return (a : A)
| Raise (e : exn)
| OutOfFuel.
Arguments Return {A} a.
Arguments Raise {A} e.
Arguments OutOfFuel {A}.

(** ** Layout types of [unstructured_inference] *)

(** [Rectangle(x1, y1, x2, y2)] *)
Record Rectangle : Type := mkRectangle { x1 : Z; y1 : Z; x2 : Z; y2 : Z }.

(** ** The service's wire types *)

(** [response.choices[i].message.content] *)
Record ResponseMessage : Type := { msg_content : option string }.
Record Choice : Type := { message : ResponseMessage }.
Record Response : Type := { choices : list Choice }.

(** ** PIL images *)

(** A [PIL.Image.Image]: its size and its raster. *)
Record PILImage (Pixels : Type) : Type :=
  mkImage { width : Z; height : Z; pixels : Pixels }.
Arguments mkImage {Pixels} _ _ _.
Arguments width {Pixels} _.
Arguments height {Pixels} _.
Arguments pixels {Pixels} _.

(** ** Collaborators *)

(** Everything the module calls and does not define.  An encoded image is
    a [Bytes]; only its length is ever inspected.  Each call either
    returns or raises. *)
Class Collaborators : Type := {
  (* PIL *)
  Pixels : Type;
  Bytes : Type;
  bytes_len : Bytes -> N;
  (* [image.save(buffer, format="PNG")] followed by [buffer.getvalue()] *)
  pil_save_png : PILImage Pixels -> exn + Bytes;
  (* the raster of [image.resize(size)] *)
  pil_resample : PILImage Pixels -> Z * Z -> exn + Pixels;
  (* base64 *)
  b64encode : Bytes -> Bytes;
  (* json *)
  json_loads : string -> exn + pyval;
  (* unstructured.partition.utils.constants *)
  Source : Type;
  OCR_GPT4O : Source;
  (* unstructured.documents.elements *)
  ElementType : Type;
  UNCATEGORIZED_TEXT : ElementType;
  (* unstructured_inference.inference.layoutelement and
     unstructured.partition.pdf_image.inference_utils:
     [build_layout_element(bbox, text, source, element_type)] *)
  LayoutElement : Type;
  build_layout_element : Rectangle -> pyval -> Source -> ElementType -> LayoutElement;
}.

Section Agent.
Context `{C : Collaborators}.

Definition Image : Type := PILImage Pixels.

(** [TextRegion(bbox, text, source)]: a dataclass, nothing is checked
    when one is built, so [text] is whatever value it is given. *)
Record TextRegion : Type :=
  mkTextRegion { bbox : Rectangle; text : pyval; source : Source }.

(** ** Requests *)

(** The image as the request carries it: the [bytes] of [b64encode], or
    the [str] they decode to.  Base64 text is ASCII, so decoding never
    fails and the [str] has as many characters as there were bytes. *)
Inductive Payload : Type :=
| PayloadBytes (b : Bytes)
| PayloadStr (b : Bytes).

(** [len(encoded_image)] *)
Definition payload_len (p : Payload) : N :=
  match p with PayloadBytes b | PayloadStr b => bytes_len b end.

(** [b.decode("utf-8")] *)
Definition decode_utf8 (b : Bytes) : Payload := PayloadStr b.

Inductive MessageContent : Type :=
| TextContent (s : string)
| ImageContent (parts : list Payload).

Record ChatMessage : Type := { role : string; content : MessageContent }.

Record Request : Type := {
  model : string;
  messages : list ChatMessage;
  temperature : Q;
  response_format : option (list (string * string));
  max_tokens : option Z;
}.

(** [OpenAI(api_key=...)] *)
Record OpenAI : Type := { api_key : string }.

Record OCRAgentGPT4O : Type := { self_model : string; self_client : OpenAI }.

(** ** The world *)

Definition ref : Type := nat.

Inductive LogLevel : Type := INFO | ERROR.

(** What an f-string interpolates into a log line. *)
Inductive LogArg : Type :=
| NoArg
| ArgResponse (r : Response)
| ArgSize (mb : Q)
| ArgValue (v : pyval)
| ArgExn (e : exn).

Inductive Event : Type :=
| EvSave (image : ref)
| EvResize (image : ref) (size : Z * Z)
| EvCreate (client : OpenAI) (req : Request)
| EvLog (level : LogLevel) (template : string) (arg : LogArg).

(** [heap]: the PIL images alive, a reference being the position at which
    its image was allocated. [oracle]: what the service answers to a
    request. [trace]: the events so far, oldest first. *)
Record World : Type := {
  heap : list Image;
  oracle : OpenAI -> Request -> exn + Response;
  trace : list Event;
}.

(** ** Computations *)

(** A computation runs in a world and ends in an [outcome]; what it did
    before raising stays done. *)
Definition M (A : Type) : Type := World -> outcome A * World.

Definition ret {A} (a : A) : M A := fun w => (Return a, w).
Definition raise {A} (e : exn) : M A := fun w => (Raise e, w).
Definition out_of_fuel {A} : M A := fun w => (OutOfFuel, w).

Definition bind {A B} (m : M A) (k : A -> M B) : M B :=
  fun w =>
    match m w with
    | (Return a, w') => k a w'
    | (Raise e, w') => (Raise e, w')
    | (OutOfFuel, w') => (OutOfFuel, w')
    end.

(** [try: m except Exception as e: handler(e)] *)
Definition try_except {A} (m : M A) (handler : exn -> M A) : M A :=
  fun w =>
    match m w with
    | (Raise e, w') => handler e w'
    | r => r
    end.

Definition lift {A} (r : exn + A) : M A :=
  match r with inl e => raise e | inr a => ret a end.

Definition emit (e : Event) : M unit :=
  fun w => (Return tt, {| heap := heap w; oracle := oracle w; trace := trace w ++ [e] |}).

Definition alloc (img : Image) : M ref :=
  fun w => (Return (length (heap w)),
            {| heap := heap w ++ [img]; oracle := oracle w; trace := trace w |}).

Definition deref (image : ref) : M Image :=
  fun w => match heap w !! image with
           | Some img => (Return img, w)
           | None => (Raise NoSuchObject, w)
           end.

Notation "x <- c1 ;; c2" := (bind c1 (fun x => c2))
  (at level 100, c1 at next level, right associativity).
Notation "c1 ;;; c2" := (bind c1 (fun _ => c2))
  (at level 100, right associativity).

(** ** Calls into the collaborators *)

(** [logger.info(f"...")], [logger.error(f"...")] *)
Definition logger_info (template : string) (arg : LogArg) : M unit :=
  emit (EvLog INFO template arg).
Definition logger_error (template : string) (arg : LogArg) : M unit :=
  emit (EvLog ERROR template arg).

(** [image.width], [image.height] *)
Definition Image_width (image : ref) : M Z := img <- deref image ;; ret (width img).
Definition Image_height (image : ref) : M Z := img <- deref image ;; ret (height img).

(** [image.save(buffer, format="PNG")] into an empty buffer, then
    [buffer.getvalue()]: the image is read, not written. *)
Definition Image_save_png (image : ref) : M Bytes :=
  img <- deref image ;;
  emit (EvSave image) ;;;
  lift (pil_save_png img).

(** [image.resize(size)]: PIL returns a resized copy, a new object of the
    requested size; the image it is called on is read. *)
Definition Image_resize (image : ref) (size : Z * Z) : M ref :=
  img <- deref image ;;
  emit (EvResize image size) ;;;
  px <- lift (pil_resample img size) ;;
  alloc (mkImage size.1 size.2 px).

(** [client.chat.completions.create(...)] *)
Definition chat_completions_create (client : OpenAI) (req : Request) : M Response :=
  emit (EvCreate client req) ;;;
  (fun w => lift (oracle w client req) w).

(** [response.choices[0].message.content] *)
Definition first_choice_content (response : Response) : M (option string) :=
  choice <- lift (index0 (choices response)) ;;
  ret (msg_content (message choice)).

(** ** [OCRAgentGPT4O] *)

Definition OPENAI_API_KEY : string := "OPENAI_API_KEY".

(** [__init__(self)], lines 30-35; [environ] is [os.environ]. *)
Definition __init__ (environ : gmap string string) : M OCRAgentGPT4O :=
  let model := "gpt-4o" in
  match environ !! OPENAI_API_KEY with
  | Some key =>
      if decide (key ≠ "") then
        ret {| self_model := model; self_client := {| api_key := key |} |}
      else
        raise (AssertionError
          "Please set the OPENAI_API_KEY environment variable to use the OpenAI API.")
  | None =>
      raise (AssertionError
        "Please set the OPENAI_API_KEY environment variable to use the OpenAI API.")
  end.

(** [is_text_sorted(self)], lines 37-38 *)
Definition is_text_sorted (self : OCRAgentGPT4O) : bool := true.

(** The request of [get_text_from_image], lines 47-62 *)
Definition text_request (self : OCRAgentGPT4O) (encoded_image : Payload) : Request :=
  {| model := self_model self;
     messages :=
       [ {| role := "system";
            content := TextContent "You are a helpful assistant that performs OCR tasks. Transcribe the following image only with the text that appears in the image." |};
         {| role := "user"; content := ImageContent [encoded_image] |} ];
     temperature := 0.0;
     response_format := None;
     max_tokens := None |}.

(** [get_text_from_image(self, image, ocr_languages="eng")], lines 40-68.
    Line 45, [image.info], reads an attribute and drops it.  Where
    [content] is not falsy it is a str, which [default] takes out of the
    option. *)
Definition get_text_from_image
    (self : OCRAgentGPT4O) (image : ref) (ocr_languages : string) : M string :=
  png <- Image_save_png image ;;
  let encoded_image := PayloadBytes (b64encode png) in
  response <- chat_completions_create (self_client self) (text_request self encoded_image) ;;
  logger_info "OpenAI Response: {response}" (ArgResponse response) ;;;
  content <- first_choice_content response ;;
  ret (if py_not content then "" else default "" content).

(** [len(encoded_image) / 1024 / 1024].  The float is this rational: a
    length divided by a power of two is exact in binary floating point. *)
Definition size_mb (encoded_image : Payload) : Q :=
  inject_Z (Z.of_N (payload_len encoded_image)) / 1024 / 1024.

(** The [while] of lines 84-91, on its variables [image], [encoded_image]
    and [img_size_mb]; it yields [encoded_image], the one variable read
    after it. [fuel] bounds the iterations the model follows: the loop
    itself has no bound. *)
Fixpoint resize_loop (fuel : nat) (image : ref) (encoded_image : Payload) (img_size_mb : Q)
    : M Payload :=
  if Qlt_le_dec 20 img_size_mb then
    match fuel with
    | O => out_of_fuel
    | S fuel' =>
        logger_info "Image size: {img_size_mb:.2f} MB" (ArgSize img_size_mb) ;;;
        logger_info "Image size too large for GPT-4 OCR. Resizing image to 75%." NoArg ;;;
        w <- Image_width image ;;
        h <- Image_height image ;;
        image <- Image_resize image (py_int (inject_Z w * 0.75), py_int (inject_Z h * 0.75)) ;;
        png <- Image_save_png image ;;
        let encoded_image := decode_utf8 (b64encode png) in
        let img_size_mb := size_mb encoded_image in
        resize_loop fuel' image encoded_image img_size_mb
    end
  else ret encoded_image.

(** Lines 80-91: encode, then shrink until the encoding fits. *)
Definition encode_image (fuel : nat) (image : ref) : M Payload :=
  png <- Image_save_png image ;;
  let encoded_image := decode_utf8 (b64encode png) in
  let img_size_mb := size_mb encoded_image in
  resize_loop fuel image encoded_image img_size_mb.

(** The request of [get_layout_from_image], lines 96-113 *)
Definition layout_request (self : OCRAgentGPT4O) (encoded_image : Payload) : Request :=
  {| model := self_model self;
     messages :=
       [ {| role := "system";
            content := TextContent "You are a helpful assistant tasked with performing OCR tasks. Please transcribe the text from the image provided into a list of paragraphs. Each paragraph should be a string in a JSON array. Ensure that the output is a valid JSON object with a key 'paragraphs' containing the array of transcribed text. The text can appear in any direction in the image." |};
         {| role := "user"; content := ImageContent [encoded_image] |} ];
     temperature := 0.0;
     response_format := Some [("type", "json_object")];
     max_tokens := Some 4096 |}.

(** The comprehension of lines 137-144 *)
Definition text_regions (paragraphs : list pyval) : list TextRegion :=
  (fun '(i, paragraph) =>
     mkTextRegion (mkRectangle i i (i + 1) (i + 1)) paragraph OCR_GPT4O)
  <$> enumerate paragraphs.

(** [get_layout_from_image(self, image, ocr_languages="eng")], lines 75-144 *)
Definition get_layout_from_image
    (fuel : nat) (self : OCRAgentGPT4O) (image : ref) (ocr_languages : string)
    : M (list TextRegion) :=
  encoded_image <- encode_image fuel image ;;
  logger_info "Image size: {len(encoded_image) / 1024 / 1024:.2f} MB"
    (ArgSize (size_mb encoded_image)) ;;;
  response <- chat_completions_create (self_client self) (layout_request self encoded_image) ;;
  logger_info "OpenAI Response: {response}" (ArgResponse response) ;;;
  content <- first_choice_content response ;;
  paragraph_list <-
    (if py_not content then ret (PList []) else lift (json_loads (default "" content))) ;;
  match paragraph_list with
  | PDict items =>
      if decide (1 < length items)%nat then
        logger_error "Expected a dictionary object with one key-value pair. Got: {paragraph_list}"
          (ArgValue paragraph_list) ;;;
        raise (ValueError "Expected a dictionary object with one key-value pair.")
      else
        paragraph_list <-
          try_except (lift (index0 (dict_values items)))
            (fun e =>
               logger_error "Error while extracting the paragraph list from the response content: {e}"
                 (ArgExn e) ;;;
               logger_error "Response content: {paragraph_list}" (ArgValue paragraph_list) ;;;
               raise (ValueError "Error while extracting the paragraph list from the response content.")) ;;
        paragraphs <- lift (py_iter paragraph_list) ;;
        ret (text_regions paragraphs)
  | _ =>
      logger_error "Expected a dictionary object for the response content. Got: {paragraph_list}"
        (ArgValue paragraph_list) ;;;
      raise (ValueError "Expected a dictionary object for the response content.")
  end.

(** [get_layout_elements_from_image(self, image, ocr_languages="eng")],
    lines 146-163 *)
Definition get_layout_elements_from_image
    (fuel : nat) (self : OCRAgentGPT4O) (image : ref) (ocr_languages : string)
    : M (list LayoutElement) :=
  ocr_regions <- get_layout_from_image fuel self image ocr_languages ;;
  ret ((fun r => build_layout_element (bbox r) (text r) (source r) UNCATEGORIZED_TEXT)
       <$> ocr_regions).

(** ** Vocabulary for the properties *)

(** The limit of line 84 in characters: 20 * 1024 * 1024. *)
Definition LIMIT : N := 20971520.

(** The size line 87 asks for. *)
Definition scaled_size (img : Image) : Z * Z :=
  (py_int (inject_Z (width img) * 0.75), py_int (inject_Z (height img) * 0.75)).

(** Three quarters, rounded toward zero. *)
Definition three_quarters (n : Z) : Z := Z.quot (3 * n) 4.

(** The image line 87 binds [image] to, given the raster PIL computed. *)
Definition scaled (img : Image) (px : Pixels) : Image :=
  mkImage (scaled_size img).1 (scaled_size img).2 px.

(** [descends img k img']: the loop, started on [img], goes through [k]
    iterations and is then at [img']: each time the encoding of the
    current image is over the limit and PIL returns the resized copy. *)
Inductive descends : Image -> nat -> Image -> Prop :=
| descends_O img : descends img O img
| descends_S img png px k img' :
    pil_save_png img = inr png ->
    (LIMIT < bytes_len (b64encode png))%N ->
    pil_resample img (scaled_size img) = inr px ->
    descends (scaled img px) k img' ->
    descends img (S k) img'.

Definition is_save (e : Event) : bool :=
  match e with EvSave _ => true | _ => false end.
Definition is_resize (e : Event) : bool :=
  match e with EvResize _ _ => true | _ => false end.
Definition is_create (e : Event) : bool :=
  match e with EvCreate _ _ => true | _ => false end.

(** How many events of a kind a trace holds. *)
Definition count (kind : Event -> bool) (t : list Event) : nat :=
  length (List.filter kind t).

(** The world after more events. *)
Definition after (w : World) (events : list Event) : World :=
  {| heap := heap w; oracle := oracle w; trace := trace w ++ events |}.

(** [w'] is [w] some steps later: the images of [w] are where they were
    and as they were, the service is the same, and the trace has grown by
    events that all satisfy [P]. *)
Definition extends (P : Event -> Prop) (w w' : World) : Prop :=
  heap w `prefix_of` heap w' /\ oracle w' = oracle w /\
  exists events, trace w' = (trace w ++ events)%list /\ Forall P events.

(** A computation that only moves the world forward, by events in [P]. *)
Definition emits (P : Event -> Prop) {A} (m : M A) : Prop :=
  forall w, extends P w (m w).2.

Definition any_event (e : Event) : Prop := True.

(** Neither an encoding nor a resize. *)
Definition past_encoding (e : Event) : Prop := is_save e = false /\ is_resize e = false.

Definition is_log (e : Event) : bool :=
  match e with EvLog _ _ _ => true | _ => false end.

(** A log line, nothing else. *)
Definition only_logs (e : Event) : Prop := is_log e = true.

(** Anything but a request to the service. *)
Definition no_request (e : Event) : Prop := is_create e = false.

(** The requests a trace holds, oldest first. *)
Definition requests (t : list Event) : list Event := List.filter is_create t.

(** The bbox given to the paragraph at position [i]. *)
Definition square (i : nat) : Rectangle :=
  mkRectangle (Z.of_nat i) (Z.of_nat i) (Z.of_nat i + 1) (Z.of_nat i + 1).

(** PIL refuses to resize to a size with no pixel (Pillow raises
    [ValueError("height and width must be > 0")]). *)
Definition pil_refuses_empty_size : Prop :=
  forall (img : Image) (size : Z * Z),
    size.1 < 1 \/ size.2 < 1 -> exists e, pil_resample img size = inl e.

(** A computation that ends, by returning or by raising, in every world. *)
Definition halts {A} (m : M A) : Prop := forall w, (m w).1 <> OutOfFuel.

(** The service answers the request of [get_text_from_image] on [image]
    with [response]. *)
Definition text_answer (self : OCRAgentGPT4O) (image : ref) (w : World)
    (response : Response) : Prop :=
  exists png w1,
    Image_save_png image w = (Return png, w1) /\
    oracle w1 (self_client self) (text_request self (PayloadBytes (b64encode png)))
      = inr response.

(** The encoding loop of [get_layout_from_image] on [image] ends, and the
    service answers the request with [response]. *)
Definition layout_answer (fuel : nat) (self : OCRAgentGPT4O) (image : ref) (w : World)
    (response : Response) : Prop :=
  exists encoded_image w1,
    encode_image fuel image w = (Return encoded_image, w1) /\
    oracle w1 (self_client self) (layout_request self encoded_image) = inr response.

(** [response.choices[0].message.content] is [content]. *)
Definition has_content (response : Response) (content : option string) : Prop :=
  exists choice rest,
    choices response = choice :: rest /\ msg_content (message choice) = content.

End Agent.

(** * A concrete instance

    Small collaborators on which the agent can be run: an image is its
    size alone, a byte string is its length alone, and [json_loads] reads
    a fragment of JSON (no escapes, no fractions, no signs). *)

Module Toy.

Local Open Scope char_scope.

Definition dquote : ascii := "034".

Fixpoint skip_ws (cs : list ascii) : list ascii :=
  match cs with
  | " " :: rest => skip_ws rest
  | _ => cs
  end.

(** The characters up to the closing quote, and what follows it. *)
Fixpoint read_string (cs : list ascii) : option (string * list ascii) :=
  match cs with
  | [] => None
  | c :: rest =>
      if decide (c = dquote) then Some (EmptyString, rest)
      else '(s, rest') ← read_string rest; Some (String c s, rest')
  end.

Definition digit (c : ascii) : option Z :=
  let n := Z.of_nat (nat_of_ascii c) in
  if decide (48 <= n <= 57)%Z then Some (n - 48)%Z else None.

Fixpoint read_digits (acc : Z) (cs : list ascii) : Z * list ascii :=
  match cs with
  | c :: rest =>
      match digit c with
      | Some d => read_digits (10 * acc + d) rest
      | None => (acc, cs)
      end
  | [] => (acc, cs)
  end.

(** [d[k] = v]: a key already present keeps its place. *)
Fixpoint dict_set (k : string) (v : pyval) (d : list (string * pyval))
    : list (string * pyval) :=
  match d with
  | [] => [(k, v)]
  | (k', v') :: rest =>
      if decide (k' = k) then (k, v) :: rest else (k', v') :: dict_set k v rest
  end.

Definition dict_of_members (members : list (string * pyval)) : list (string * pyval) :=
  foldl (fun d '(k, v) => dict_set k v d) [] members.

Fixpoint parse_value (fuel : nat) (cs : list ascii) : option (pyval * list ascii) :=
  match fuel with
  | O => None
  | S fuel =>
      match skip_ws cs with
      | "n" :: "u" :: "l" :: "l" :: rest => Some (PNone, rest)
      | "t" :: "r" :: "u" :: "e" :: rest => Some (PBool true, rest)
      | "f" :: "a" :: "l" :: "s" :: "e" :: rest => Some (PBool false, rest)
      | "[" :: rest =>
          match skip_ws rest with
          | "]" :: rest' => Some (PList [], rest')
          | _ => '(items, rest') ← parse_items fuel rest; Some (PList items, rest')
          end
      | "{" :: rest =>
          match skip_ws rest with
          | "}" :: rest' => Some (PDict [], rest')
          | _ =>
              '(members, rest') ← parse_members fuel rest;
              Some (PDict (dict_of_members members), rest')
          end
      | c :: rest =>
          if decide (c = dquote) then
            '(s, rest') ← read_string rest; Some (PStr s, rest')
          else
            match digit c with
            | Some _ => let '(n, rest') := read_digits 0 (c :: rest) in Some (PInt n, rest')
            | None => None
            end
      | [] => None
      end
  end
with parse_items (fuel : nat) (cs : list ascii) : option (list pyval * list ascii) :=
  match fuel with
  | O => None
  | S fuel =>
      '(v, rest) ← parse_value fuel cs;
      match skip_ws rest with
      | "," :: rest' => '(vs, rest'') ← parse_items fuel rest'; Some (v :: vs, rest'')
      | "]" :: rest' => Some ([v], rest')
      | _ => None
      end
  end
with parse_members (fuel : nat) (cs : list ascii)
    : option (list (string * pyval) * list ascii) :=
  match fuel with
  | O => None
  | S fuel =>
      match skip_ws cs with
      | c :: rest =>
          if decide (c = dquote) then
            '(k, rest1) ← read_string rest;
            match skip_ws rest1 with
            | ":" :: rest2 =>
                '(v, rest3) ← parse_value fuel rest2;
                match skip_ws rest3 with
                | "," :: rest4 =>
                    '(ms, rest5) ← parse_members fuel rest4; Some ((k, v) :: ms, rest5)
                | "}" :: rest4 => Some ([(k, v)], rest4)
                | _ => None
                end
            | _ => None
            end
          else None
      | [] => None
      end
  end.

Definition loads (s : string) : exn + pyval :=
  let cs := String.list_ascii_of_string s in
  match parse_value (2 * length cs + 2) cs with
  | Some (v, rest) =>
      match skip_ws rest with
      | [] => inr v
      | _ => inl (ExternalError "json" "JSONDecodeError: Extra data"%string)
      end
  | None => inl (ExternalError "json" "JSONDecodeError: Expecting value"%string)
  end.

(** [q s]: [s] between double quotes. *)
Definition q (s : string) : string :=
  String dquote (String.append s (String dquote EmptyString)).

Inductive source : Type := SRC_PDFMINER | SRC_TESSERACT | SRC_GPT4O.
Inductive element_type : Type := ET_TITLE | ET_NARRATIVE_TEXT | ET_UNCATEGORIZED_TEXT.

Record layout_element : Type := {
  le_bbox : Rectangle;
  le_text : pyval;
  le_source : source;
  le_type : element_type;
}.

(** An image of [w] by [h] pixels fills a file of 4 bytes a pixel behind
    a 64-byte header; one with no pixel cannot be written, and none can be
    resized to less than a pixel. *)
Definition save_png (img : PILImage unit) : exn + N :=
  if decide (0 < width img ∧ 0 < height img)%Z then
    inr (Z.to_N (4 * width img * height img + 64))
  else inl (ExternalError "PIL" "cannot write empty image"%string).

Definition resample (img : PILImage unit) (size : Z * Z) : exn + unit :=
  if decide (0 < size.1 ∧ 0 < size.2)%Z then inr tt
  else inl (ExternalError "PIL" "height and width must be > 0"%string).

Definition b64_len (n : N) : N := (4 * ((n + 2) / 3))%N.

#[local] Instance collaborators : Collaborators := {|
  Pixels := unit;
  Bytes := N;
  bytes_len := fun n => n;
  pil_save_png := save_png;
  pil_resample := resample;
  b64encode := b64_len;
  json_loads := loads;
  Source := source;
  OCR_GPT4O := SRC_GPT4O;
  ElementType := element_type;
  UNCATEGORIZED_TEXT := ET_UNCATEGORIZED_TEXT;
  LayoutElement := layout_element;
  build_layout_element := fun b t s ty =>
    {| le_bbox := b; le_text := t; le_source := s; le_type := ty |};
|}.

Definition agent : OCRAgentGPT4O :=
  {| self_model := "gpt-4o"; self_client := {| api_key := "sk-test" |} |}.

(** The answer of one choice with the given content. *)
Definition answer (content : option string) : Response :=
  {| choices := [ {| message := {| msg_content := content |} |} ] |}.

(** A world holding one image, of [w] by [h] pixels, whose service gives
    [answer content] to every request. *)
Definition world (w h : Z) (content : option string) : World :=
  {| heap := [mkImage w h tt];
     oracle := fun _ _ => inr (answer content);
     trace := [] |}.

(** The same, with a service that gives [reply] to every request. *)
Definition world_of (w h : Z) (reply : exn + Response) : World :=
  {| heap := [mkImage w h tt];
     oracle := fun _ _ => reply;
     trace := [] |}.

Definition cat (parts : list string) : string := foldr String.append EmptyString parts.

(** One key, a list of two paragraphs. *)
Definition doc_ab : string :=
  cat ["{"; q "paragraphs"; ": ["; q "a"; ", "; q "b"; "]}"]%string.

(** One key, a str where the list should be. *)
Definition doc_str : string :=
  cat ["{"; q "paragraphs"; ": "; q "hi"; "}"]%string.

(** One key, a number where the list should be. *)
Definition doc_int : string :=
  cat ["{"; q "paragraphs"; ": 17}"]%string.

(** Two keys. *)
Definition doc_two : string :=
  cat ["{"; q "paragraphs"; ": ["; q "a"; "], "; q "notes"; ": ["; q "b"; "]}"]%string.

End Toy.


(** * Properties *)

Section Properties.
Context `{C : Collaborators}.

(** ** Running a computation step by step *)

Lemma bind_Return {A B} (m : M A) (k : A -> M B) w a w' :
  m w = (Return a, w') -> bind m k w = k a w'.
Proof. intros H. unfold bind. now rewrite H. Qed.

Lemma bind_Raise {A B} (m : M A) (k : A -> M B) w e w' :
  m w = (Raise e, w') -> bind m k w = (Raise e, w').
Proof. intros H. unfold bind. now rewrite H. Qed.

Lemma bind_OutOfFuel {A B} (m : M A) (k : A -> M B) w w' :
  m w = (OutOfFuel, w') -> bind m k w = (OutOfFuel, w').
Proof. intros H. unfold bind. now rewrite H. Qed.

Lemma emit_run e w : emit e w = (Return tt, after w [e]).
Proof. reflexivity. Qed.

Lemma deref_run image img w :
  heap w !! image = Some img -> deref image w = (Return img, w).
Proof. intros H. unfold deref. now rewrite H. Qed.

Lemma Image_width_run image img w :
  heap w !! image = Some img -> Image_width image w = (Return (width img), w).
Proof. intros H. unfold Image_width. now rewrite (bind_Return _ _ _ _ _ (deref_run _ _ _ H)). Qed.

Lemma Image_height_run image img w :
  heap w !! image = Some img -> Image_height image w = (Return (height img), w).
Proof. intros H. unfold Image_height. now rewrite (bind_Return _ _ _ _ _ (deref_run _ _ _ H)). Qed.

Lemma Image_save_png_run image img w :
  heap w !! image = Some img ->
  Image_save_png image w =
    (match pil_save_png img with inr png => Return png | inl e => Raise e end,
     after w [EvSave image]).
Proof.
  intros H. unfold Image_save_png.
  rewrite (bind_Return _ _ _ _ _ (deref_run _ _ _ H)).
  rewrite (bind_Return _ _ _ _ _ (emit_run _ _)).
  now destruct (pil_save_png img).
Qed.

Lemma Image_resize_run image img size px w :
  heap w !! image = Some img ->
  pil_resample img size = inr px ->
  Image_resize image size w =
    (Return (length (heap w)),
     {| heap := heap w ++ [mkImage size.1 size.2 px];
        oracle := oracle w;
        trace := trace w ++ [EvResize image size] |}).
Proof.
  intros H Hpx. unfold Image_resize.
  rewrite (bind_Return _ _ _ _ _ (deref_run _ _ _ H)).
  rewrite (bind_Return _ _ _ _ _ (emit_run _ _)).
  unfold bind. rewrite Hpx. reflexivity.
Qed.

(** ** Arithmetic of the loop *)

(** [int(n * 0.75)] is three quarters of [n], rounded toward zero. *)
Lemma py_int_three_quarters (n : Z) : py_int (inject_Z n * 0.75) = three_quarters n.
Proof.
  unfold py_int, three_quarters. simpl.
  replace (n * 75) with (3 * n * 25) by lia.
  change (Z.pos (1 * 100)) with (4 * 25).
  now apply Z.quot_mul_cancel_r.
Qed.

(** A positive size gets strictly smaller, and never negative. *)
Lemma three_quarters_shrinks (n : Z) : 0 < n -> 0 <= three_quarters n < n.
Proof.
  intros H. unfold three_quarters. split.
  - apply Z.quot_pos; lia.
  - apply Z.quot_lt_upper_bound; lia.
Qed.

(** [img_size_mb > 20] compares the length with 20 MiB. *)
Lemma over_limit (p : Payload) : (20 < size_mb p)%Q <-> (LIMIT < payload_len p)%N.
Proof.
  unfold size_mb, LIMIT. generalize (payload_len p). intros n.
  unfold Qlt, Qdiv, Qmult, Qinv, inject_Z. simpl.
  change (Z.pos (1 * 1024 * 1024)) with 1048576. lia.
Qed.

(** ** The resize loop *)

Lemma Image_save_png_ok image img png w :
  heap w !! image = Some img ->
  pil_save_png img = inr png ->
  Image_save_png image w = (Return png, after w [EvSave image]).
Proof. intros H Hpng. rewrite (Image_save_png_run _ _ _ H). now rewrite Hpng. Qed.

Lemma lookup_fresh (h : list Image) (img : Image) : (h ++ [img])%list !! length h = Some img.
Proof. now apply list_lookup_middle. Qed.

Ltac step :=
  first
    [ erewrite bind_Return by apply emit_run
    | erewrite bind_Return by (apply Image_width_run; eassumption)
    | erewrite bind_Return by (apply Image_height_run; eassumption)
    | erewrite bind_Return by (eapply Image_resize_run; eassumption) ].

Lemma resize_loop_fits fuel image enc w :
  (payload_len enc <= LIMIT)%N ->
  resize_loop fuel image enc (size_mb enc) w = (Return enc, w).
Proof.
  intros H. destruct fuel; simpl; destruct (Qlt_le_dec 20 (size_mb enc)) as [Hq|Hq];
    try reflexivity; apply over_limit in Hq; lia.
Qed.

Lemma resize_loop_pending image enc w :
  (LIMIT < payload_len enc)%N ->
  resize_loop 0 image enc (size_mb enc) w = (OutOfFuel, w).
Proof.
  intros H. simpl. destruct (Qlt_le_dec 20 (size_mb enc)) as [Hq|Hq]; [reflexivity|].
  apply Qle_not_lt in Hq. destruct Hq. now apply over_limit.
Qed.

Lemma resize_loop_iteration fuel image enc w img px png :
  (LIMIT < payload_len enc)%N ->
  heap w !! image = Some img ->
  pil_resample img (scaled_size img) = inr px ->
  pil_save_png (scaled img px) = inr png ->
  resize_loop (S fuel) image enc (size_mb enc) w =
  resize_loop fuel (length (heap w)) (decode_utf8 (b64encode png))
    (size_mb (decode_utf8 (b64encode png)))
    {| heap := heap w ++ [scaled img px];
       oracle := oracle w;
       trace := trace w ++
         [EvLog INFO "Image size: {img_size_mb:.2f} MB" (ArgSize (size_mb enc));
          EvLog INFO "Image size too large for GPT-4 OCR. Resizing image to 75%." NoArg;
          EvResize image (scaled_size img);
          EvSave (length (heap w))] |}.
Proof.
  intros Hover Himg Hpx Hpng. simpl.
  destruct (Qlt_le_dec 20 (size_mb enc)) as [Hq|Hq].
  2:{ apply Qle_not_lt in Hq. destruct Hq. now apply over_limit. }
  unfold logger_info.
  do 5 step.
  cbn [after heap oracle trace].
  erewrite bind_Return.
  2:{ eapply Image_save_png_ok; [apply lookup_fresh | exact Hpng]. }
  unfold after. cbn [heap oracle trace]. rewrite <- !app_assoc. reflexivity.
Qed.


(** ** Computations only extend the world *)

Lemma extends_refl P w : extends P w w.
Proof. repeat split; try reflexivity. exists []. now rewrite app_nil_r. Qed.

Lemma extends_trans P w1 w2 w3 : extends P w1 w2 -> extends P w2 w3 -> extends P w1 w3.
Proof.
  intros (Hh & Ho & es & Ht & HP) (Hh' & Ho' & es' & Ht' & HP'). repeat split.
  - now transitivity (heap w2).
  - congruence.
  - exists (es ++ es')%list. rewrite Ht', Ht, app_assoc. split; [reflexivity|].
    now apply Forall_app.
Qed.

Lemma extends_weaken (P Q : Event -> Prop) w w' :
  (forall e, P e -> Q e) -> extends P w w' -> extends Q w w'.
Proof.
  intros HPQ (Hh & Ho & es & Ht & HP). repeat split; try assumption.
  exists es. split; [assumption|]. eapply Forall_impl; eauto.
Qed.

Lemma extends_lookup P w w' image img :
  extends P w w' -> heap w !! image = Some img -> heap w' !! image = Some img.
Proof. intros (Hh & _) H. now apply (prefix_lookup_Some _ _ _ _ H Hh). Qed.

Section Emits.
Variable P : Event -> Prop.

Lemma emits_ret {A} (a : A) : emits P (ret a).
Proof. intros w. apply extends_refl. Qed.

Lemma emits_raise {A} (e : exn) : emits P (@raise _ A e).
Proof. intros w. apply extends_refl. Qed.

Lemma emits_out_of_fuel {A} : emits P (@out_of_fuel _ A).
Proof. intros w. apply extends_refl. Qed.

Lemma emits_lift {A} (r : exn + A) : emits P (lift r).
Proof. destruct r; intros w; apply extends_refl. Qed.

Lemma emits_bind {A B} (m : M A) (k : A -> M B) :
  emits P m -> (forall a, emits P (k a)) -> emits P (bind m k).
Proof.
  intros Hm Hk w. unfold bind. specialize (Hm w).
  destruct (m w) as [[a| e |] w']; simpl in *; try assumption.
  eapply extends_trans; [eassumption | apply Hk].
Qed.

Lemma emits_try_except {A} (m : M A) (handler : exn -> M A) :
  emits P m -> (forall e, emits P (handler e)) -> emits P (try_except m handler).
Proof.
  intros Hm Hh w. unfold try_except. specialize (Hm w).
  destruct (m w) as [[a| e |] w']; simpl in *; try assumption.
  eapply extends_trans; [eassumption | apply Hh].
Qed.

Lemma emits_emit e : P e -> emits P (emit e).
Proof.
  intros He w. repeat split; simpl; try reflexivity. exists [e]. split; [reflexivity|].
  now constructor.
Qed.

Lemma emits_alloc img : emits P (alloc img).
Proof.
  intros w. repeat split; simpl; try reflexivity.
  - now apply prefix_app_r.
  - exists []. now rewrite app_nil_r.
Qed.

Lemma emits_deref image : emits P (deref image).
Proof. intros w. unfold deref. destruct (heap w !! image); apply extends_refl. Qed.

Lemma emits_oracle (client : OpenAI) (req : Request) :
  emits P (fun w => lift (oracle w client req) w).
Proof. intros w. apply emits_lift. Qed.

End Emits.

Create HintDb emits discriminated.

Hint Resolve emits_ret emits_raise emits_out_of_fuel emits_lift emits_alloc emits_deref
  emits_oracle : emits.
Hint Extern 2 (emits _ (bind _ _)) => apply emits_bind; [ | intros ? ] : emits.
Hint Extern 2 (emits _ (try_except _ _)) => apply emits_try_except; [ | intros ? ] : emits.
Hint Extern 2 (emits _ (emit _)) => apply emits_emit; first [exact I | now split] : emits.

Ltac emits := unfold logger_info, logger_error; auto 20 with emits.

Lemma emits_Image_width P image : emits P (Image_width image).
Proof. unfold Image_width. emits. Qed.

Lemma emits_Image_height P image : emits P (Image_height image).
Proof. unfold Image_height. emits. Qed.

Lemma emits_Image_save_png image : emits any_event (Image_save_png image).
Proof. unfold Image_save_png. emits. Qed.

Lemma emits_Image_resize image size : emits any_event (Image_resize image size).
Proof. unfold Image_resize. emits. Qed.

Lemma emits_chat_completions_create P client req :
  P (EvCreate client req) -> emits P (chat_completions_create client req).
Proof. intros H. unfold chat_completions_create. apply emits_bind; [now apply emits_emit|]. emits. Qed.

Lemma emits_first_choice_content P response : emits P (first_choice_content response).
Proof. unfold first_choice_content. emits. Qed.

Hint Resolve emits_Image_width emits_Image_height emits_Image_save_png
  emits_Image_resize emits_first_choice_content : emits.
Hint Extern 2 (emits _ (chat_completions_create _ _)) =>
  apply emits_chat_completions_create; first [exact I | now split] : emits.

Lemma emits_resize_loop fuel :
  forall image enc mb, emits any_event (resize_loop fuel image enc mb).
Proof.
  induction fuel as [|fuel IH]; intros image enc mb; simpl;
    destruct (Qlt_le_dec 20 mb); emits.
Qed.

Lemma emits_encode_image fuel image : emits any_event (encode_image fuel image).
Proof. unfold encode_image. pose proof (emits_resize_loop fuel). emits. Qed.

Lemma emits_get_text_from_image self image langs :
  emits any_event (get_text_from_image self image langs).
Proof. unfold get_text_from_image. emits. Qed.

(** Once the image is encoded, [get_layout_from_image] neither encodes
    nor resizes again; if the encoding does not end, neither does it. *)
Lemma get_layout_from_image_after_encoding fuel self image langs w :
  match encode_image fuel image w with
  | (Return enc, w1) =>
      extends past_encoding w1 (get_layout_from_image fuel self image langs w).2
  | (Raise e, w1) => get_layout_from_image fuel self image langs w = (Raise e, w1)
  | (OutOfFuel, w1) => get_layout_from_image fuel self image langs w = (OutOfFuel, w1)
  end.
Proof.
  destruct (encode_image fuel image w) as [[enc|e|] w1] eqn:Henc;
    unfold get_layout_from_image;
    [ rewrite (bind_Return _ _ _ _ _ Henc)
    | now rewrite (bind_Raise _ _ _ _ _ Henc)
    | now rewrite (bind_OutOfFuel _ _ _ _ Henc) ].
  match goal with |- extends ?P ?w1 (?m ?w1).2 => cut (emits P m); [intros Hm; apply Hm|] end.
  do 4 (apply emits_bind; [emits|]; intros ?).
  apply emits_bind.
  - destruct (py_not _); emits.
  - intros [| | | | | |items]; emits.
    destruct (decide _); emits.
Qed.

Lemma emits_get_layout_from_image fuel self image langs :
  emits any_event (get_layout_from_image fuel self image langs).
Proof.
  intros w. pose proof (get_layout_from_image_after_encoding fuel self image langs w) as H.
  pose proof (emits_encode_image fuel image w) as He.
  destruct (encode_image fuel image w) as [[enc|e|] w1]; simpl in He.
  - eapply extends_trans; [exact He|]. eapply extends_weaken; [|exact H]. now intros.
  - now rewrite H.
  - now rewrite H.
Qed.

Lemma emits_get_layout_elements_from_image fuel self image langs :
  emits any_event (get_layout_elements_from_image fuel self image langs).
Proof.
  unfold get_layout_elements_from_image.
  pose proof (emits_get_layout_from_image fuel self image langs). emits.
Qed.

(** ** The loop as a whole *)

Lemma count_app kind (t1 t2 : list Event) :
  count kind (t1 ++ t2) = (count kind t1 + count kind t2)%nat.
Proof. unfold count. now rewrite List.filter_app, length_app. Qed.

(** From an image [k] iterations away from one whose encoding fits, the
    loop returns that encoding after [k] resizes and [k] encodings. *)
Lemma resize_loop_descends img k img' :
  descends img k img' ->
  forall png', pil_save_png img' = inr png' ->
  (bytes_len (b64encode png') <= LIMIT)%N ->
  forall fuel image png w,
  heap w !! image = Some img ->
  pil_save_png img = inr png ->
  (k <= fuel)%nat ->
  exists w' events,
    resize_loop fuel image (decode_utf8 (b64encode png))
      (size_mb (decode_utf8 (b64encode png))) w
      = (Return (decode_utf8 (b64encode png')), w') /\
    trace w' = (trace w ++ events)%list /\
    count is_save events = k /\ count is_resize events = k /\
    count is_create events = O.
Proof.
  induction 1 as [img | img png0 px k img' Hpng0 Hover Hpx Hdesc IH];
    intros png' Hpng' Hfit fuel image png w Himg Hpng Hfuel.
  - assert (png' = png) by congruence. subst png'.
    exists w, []. rewrite app_nil_r. repeat split.
    now apply resize_loop_fits.
  - destruct fuel as [|fuel]; [lia|].
    assert (png0 = png) by congruence. subst png0.
    assert (exists png1, pil_save_png (scaled img px) = inr png1) as [png1 Hpng1].
    { inversion Hdesc; subst; eauto. }
    rewrite (resize_loop_iteration fuel image (decode_utf8 (b64encode png)) w img px png1
               Hover Himg Hpx Hpng1).
    match goal with
    | |- context [resize_loop _ _ _ _ ?w1] =>
        destruct (IH png' Hpng' Hfit fuel (length (heap w)) png1 w1)
          as (w' & events & Hrun & Htr & Hs & Hr & Hc);
          [ apply lookup_fresh | exact Hpng1 | lia | ]
    end.
    exists w'. eexists. split; [exact Hrun|]. split.
    { rewrite Htr. simpl. rewrite <- app_assoc. reflexivity. }
    rewrite !count_app, Hs, Hr, Hc. repeat split.
Qed.

(** If, [k] iterations in, the encoding is still over the limit, the
    loop is still running: nothing but the size test ends it. *)
Lemma resize_loop_descends_pending img k img' :
  descends img k img' ->
  forall png', pil_save_png img' = inr png' ->
  (LIMIT < bytes_len (b64encode png'))%N ->
  forall image png w,
  heap w !! image = Some img ->
  pil_save_png img = inr png ->
  exists w',
    resize_loop k image (decode_utf8 (b64encode png))
      (size_mb (decode_utf8 (b64encode png))) w = (OutOfFuel, w').
Proof.
  induction 1 as [img | img png0 px k img' Hpng0 Hover Hpx Hdesc IH];
    intros png' Hpng' Hbig image png w Himg Hpng.
  - assert (png' = png) by congruence. subst png'.
    exists w. now apply resize_loop_pending.
  - assert (png0 = png) by congruence. subst png0.
    assert (exists png1, pil_save_png (scaled img px) = inr png1) as [png1 Hpng1].
    { inversion Hdesc; subst; eauto. }
    rewrite (resize_loop_iteration k image (decode_utf8 (b64encode png)) w img px png1
               Hover Himg Hpx Hpng1).
    apply (IH png' Hpng' Hbig); [apply lookup_fresh | exact Hpng1].
Qed.

(** Sizes along the loop: three quarters, rounded down, each time. *)
Lemma scaled_width img px : width (scaled img px) = three_quarters (width img).
Proof. apply py_int_three_quarters. Qed.

Lemma scaled_height img px : height (scaled img px) = three_quarters (height img).
Proof. apply py_int_three_quarters. Qed.

Lemma descends_size img k img' :
  descends img k img' ->
  width img' = Nat.iter k three_quarters (width img) /\
  height img' = Nat.iter k three_quarters (height img).
Proof.
  induction 1 as [img | img png0 px k img' _ _ _ _ [IHw IHh]]; [now split|].
  rewrite IHw, IHh, scaled_width, scaled_height, !Nat.iter_succ_r. now split.
Qed.

Lemma descends_encodes img k img' png' :
  descends img k img' -> pil_save_png img' = inr png' ->
  exists png, pil_save_png img = inr png.
Proof. intros H Hpng'. inversion H; subst; eauto. Qed.

Lemma count_none kind (events : list Event) :
  Forall (fun e => kind e = false) events -> count kind events = O.
Proof.
  unfold count. induction 1 as [|e es He _ IH]; [reflexivity|].
  simpl. now rewrite He.
Qed.

Lemma encode_image_descends fuel image w img k img' png' :
  heap w !! image = Some img ->
  descends img k img' ->
  pil_save_png img' = inr png' ->
  (bytes_len (b64encode png') <= LIMIT)%N ->
  (k <= fuel)%nat ->
  exists w1 events,
    encode_image fuel image w = (Return (decode_utf8 (b64encode png')), w1) /\
    trace w1 = (trace w ++ events)%list /\
    count is_save events = S k /\ count is_resize events = k /\
    count is_create events = O.
Proof.
  intros Himg Hdesc Hpng' Hfit Hfuel.
  destruct (descends_encodes _ _ _ _ Hdesc Hpng') as [png Hpng].
  unfold encode_image.
  rewrite (bind_Return _ _ _ _ _ (Image_save_png_ok _ _ _ _ Himg Hpng)).
  destruct (resize_loop_descends _ _ _ Hdesc _ Hpng' Hfit fuel image png
              (after w [EvSave image]) Himg Hpng Hfuel)
    as (w1 & events & Hrun & Htr & Hs & Hr & Hc).
  exists w1, (EvSave image :: events). split; [exact Hrun|]. split.
  { rewrite Htr. simpl. now rewrite <- app_assoc. }
  change (EvSave image :: events) with ([EvSave image] ++ events)%list.
  rewrite !count_app, Hs, Hr, Hc. repeat split.
Qed.

Lemma encode_image_pending image w img k img' png' :
  heap w !! image = Some img ->
  descends img k img' ->
  pil_save_png img' = inr png' ->
  (LIMIT < bytes_len (b64encode png'))%N ->
  exists w1, encode_image k image w = (OutOfFuel, w1).
Proof.
  intros Himg Hdesc Hpng' Hbig.
  destruct (descends_encodes _ _ _ _ Hdesc Hpng') as [png Hpng].
  unfold encode_image.
  rewrite (bind_Return _ _ _ _ _ (Image_save_png_ok _ _ _ _ Himg Hpng)).
  exact (resize_loop_descends_pending _ _ _ Hdesc _ Hpng' Hbig image png
           (after w [EvSave image]) Himg Hpng).
Qed.

(** ** What [get_layout_from_image] makes of an answer *)

(** The way the call ends is a function of the content alone. *)
Lemma get_layout_from_image_outcome fuel self image langs w response content :
  layout_answer fuel self image w response ->
  has_content response content ->
  (get_layout_from_image fuel self image langs w).1 =
    if py_not content then
      Raise (ValueError "Expected a dictionary object for the response content.")
    else
      match json_loads (default "" content) with
      | inl e => Raise e
      | inr (PDict items) =>
          if decide (1 < length items)%nat then
            Raise (ValueError "Expected a dictionary object with one key-value pair.")
          else
            match dict_values items with
            | [] =>
                Raise (ValueError
                  "Error while extracting the paragraph list from the response content.")
            | v :: _ =>
                match py_iter v with
                | inl e => Raise e
                | inr paragraphs => Return (text_regions paragraphs)
                end
            end
      | inr _ => Raise (ValueError "Expected a dictionary object for the response content.")
      end.
Proof.
  intros (enc & w1 & Henc & Horacle) (choice & rest & Hchoices & Hcontent).
  unfold get_layout_from_image.
  rewrite (bind_Return _ _ _ _ _ Henc).
  unfold logger_info. rewrite (bind_Return _ _ _ _ _ (emit_run _ _)).
  unfold chat_completions_create.
  unfold bind at 1. unfold bind at 1. rewrite emit_run.
  cbn [after oracle]. rewrite Horacle. cbn [lift ret].
  rewrite (bind_Return _ _ _ _ _ (emit_run _ _)).
  unfold first_choice_content. rewrite Hchoices. cbn [index0 lift].
  unfold bind at 1. unfold bind at 1. cbn [ret]. rewrite Hcontent.
  unfold bind at 1.
  destruct (py_not content); [reflexivity|].
  destruct (json_loads (default "" content)) as [e|v]; [reflexivity|].
  cbn [lift ret].
  destruct v as [| | | | | |items]; try reflexivity.
  destruct (decide (1 < length items)%nat); [reflexivity|].
  destruct items as [|[key v] items]; [reflexivity|].
  cbn. unfold bind, try_except. cbn.
  destruct (py_iter v); reflexivity.
Qed.

Lemma get_text_from_image_outcome self image langs w response content :
  text_answer self image w response ->
  has_content response content ->
  (get_text_from_image self image langs w).1 =
    Return (if py_not content then "" else default "" content).
Proof.
  intros (png & w1 & Hpng & Horacle) (choice & rest & Hchoices & Hcontent).
  unfold get_text_from_image.
  rewrite (bind_Return _ _ _ _ _ Hpng).
  unfold chat_completions_create.
  unfold bind at 1. unfold bind at 1. rewrite emit_run.
  cbn [after oracle]. rewrite Horacle. cbn [lift ret].
  unfold logger_info. rewrite (bind_Return _ _ _ _ _ (emit_run _ _)).
  unfold first_choice_content. rewrite Hchoices. cbn [index0 lift].
  unfold bind. cbn [ret fst]. now rewrite Hcontent.
Qed.

(** * The claims *)

(** ** C7 *)

(** C7. With [OPENAI_API_KEY] unset or empty, constructing the agent
    fails at once with an [AssertionError]: the world is left as it was,
    so no request has gone out, and no agent is returned. *)
Theorem init_requires_credential (environ : gmap string string) (w : World) :
  environ !! OPENAI_API_KEY = None \/ environ !! OPENAI_API_KEY = Some "" ->
  __init__ environ w =
    (Raise (AssertionError
       "Please set the OPENAI_API_KEY environment variable to use the OpenAI API."), w)
  /\ (forall agent w', __init__ environ w <> (Return agent, w')).
Proof.
  intros H.
  assert (__init__ environ w =
    (Raise (AssertionError
       "Please set the OPENAI_API_KEY environment variable to use the OpenAI API."), w)) as E.
  { unfold __init__. destruct H as [-> | ->]; [reflexivity|].
    destruct (decide ("" ≠ "")) as [Hne|_]; [now destruct Hne | reflexivity]. }
  split; [exact E|]. intros agent w'. rewrite E. discriminate.
Qed.

(** ** C8 *)

(** C8. The language hint changes nothing: for any two hints, run in the
    same world (the same store, the same service), each of the three
    operations ends the same way and leaves the same world, requests sent
    included. *)
Theorem ocr_languages_ignored (fuel : nat) (self : OCRAgentGPT4O) (image : ref)
    (langs1 langs2 : string) (w : World) :
  get_text_from_image self image langs1 w = get_text_from_image self image langs2 w
  /\ get_layout_from_image fuel self image langs1 w
     = get_layout_from_image fuel self image langs2 w
  /\ get_layout_elements_from_image fuel self image langs1 w
     = get_layout_elements_from_image fuel self image langs2 w.
Proof.
  split; [reflexivity|]. split; [reflexivity|].
  unfold get_layout_elements_from_image, bind.
  change (get_layout_from_image fuel self image langs1 w)
    with (get_layout_from_image fuel self image langs2 w).
  reflexivity.
Qed.

(** ** C6 *)

(** C6. [get_layout_elements_from_image] is [get_layout_from_image]
    followed by a map: when the latter returns regions, the former
    returns as many elements, the i-th built from the i-th region's bbox,
    text and source with type [UNCATEGORIZED_TEXT], in the same world;
    when the latter raises, or runs on, so does the former, identically:
    nothing else is checked. *)
Theorem layout_elements_map_regions (fuel : nat) (self : OCRAgentGPT4O) (image : ref)
    (langs : string) (w w' : World) :
  (forall regions,
     get_layout_from_image fuel self image langs w = (Return regions, w') ->
     exists elements,
       get_layout_elements_from_image fuel self image langs w = (Return elements, w') /\
       length elements = length regions /\
       forall i r, regions !! i = Some r ->
         elements !! i =
           Some (build_layout_element (bbox r) (text r) (source r) UNCATEGORIZED_TEXT))
  /\ (forall e,
        get_layout_from_image fuel self image langs w = (Raise e, w') ->
        get_layout_elements_from_image fuel self image langs w = (Raise e, w'))
  /\ (get_layout_from_image fuel self image langs w = (OutOfFuel, w') ->
      get_layout_elements_from_image fuel self image langs w = (OutOfFuel, w')).
Proof.
  unfold get_layout_elements_from_image. repeat split.
  - intros regions H. rewrite (bind_Return _ _ _ _ _ H). eexists. split; [reflexivity|].
    split; [apply length_fmap|].
    intros i r Hr. now rewrite list_lookup_fmap, Hr.
  - intros e H. now rewrite (bind_Raise _ _ _ _ _ H).
  - intros H. now rewrite (bind_OutOfFuel _ _ _ _ H).
Qed.

(** ** C9 *)

(** C9. No extraction writes to the caller's image: the object the
    caller passed is in the store unchanged (width, height, raster) when
    the operation ends, however it ends; and a resize puts its result at
    a reference that was not in use, leaving the image it was called on
    as it was. *)
Theorem images_never_mutated (fuel : nat) (self : OCRAgentGPT4O) (image : ref)
    (langs : string) (w : World) (img : Image) :
  heap w !! image = Some img ->
  heap (get_text_from_image self image langs w).2 !! image = Some img
  /\ heap (get_layout_from_image fuel self image langs w).2 !! image = Some img
  /\ heap (get_layout_elements_from_image fuel self image langs w).2 !! image = Some img
  /\ (forall size px, pil_resample img size = inr px ->
        exists image' w',
          Image_resize image size w = (Return image', w') /\
          heap w !! image' = None /\
          heap w' !! image' = Some (mkImage size.1 size.2 px) /\
          heap w' !! image = Some img).
Proof.
  intros Himg. repeat split.
  - exact (extends_lookup _ _ _ _ _ (emits_get_text_from_image self image langs w) Himg).
  - exact (extends_lookup _ _ _ _ _ (emits_get_layout_from_image fuel self image langs w) Himg).
  - exact (extends_lookup _ _ _ _ _
             (emits_get_layout_elements_from_image fuel self image langs w) Himg).
  - intros size px Hpx. eexists _, _. split; [exact (Image_resize_run _ _ _ _ _ Himg Hpx)|].
    cbn [heap]. split; [|split].
    + apply lookup_ge_None. lia.
    + apply lookup_fresh.
    + now apply lookup_app_l_Some.
Qed.

(** ** C1 *)

(** C1. When the content of the answer is null or
    empty, [get_text_from_image] returns the empty string, but
    [get_layout_from_image] raises: the empty list that stands in for the
    parsed content is not a dict, and the check of line 121 rejects it. *)
Theorem empty_content_text_returns_layout_raises (fuel : nat) (self : OCRAgentGPT4O)
    (image : ref) (langs : string) (w : World) (response : Response)
    (content : option string) :
  has_content response content ->
  content = None \/ content = Some "" ->
  (text_answer self image w response ->
     (get_text_from_image self image langs w).1 = Return "")
  /\ (layout_answer fuel self image w response ->
        (get_layout_from_image fuel self image langs w).1 =
          Raise (ValueError "Expected a dictionary object for the response content.")).
Proof.
  intros Hcontent Hempty.
  assert (py_not content = true) as Hnot by (destruct Hempty as [-> | ->]; reflexivity).
  split; intros Hanswer.
  - rewrite (get_text_from_image_outcome _ _ _ _ _ _ Hanswer Hcontent). now rewrite Hnot.
  - rewrite (get_layout_from_image_outcome _ _ _ _ _ _ _ Hanswer Hcontent). now rewrite Hnot.
Qed.

Lemma py_not_nonempty (s : string) : s <> "" -> py_not (Some s) = false.
Proof. intros H. unfold py_not. now destruct (decide (s = "")). Qed.

(** ** C3 *)

(** C3. When the content parses to something that is not a dict, or to a
    dict of more than one key, [get_layout_from_image] raises a
    [ValueError]; nothing is returned. *)
Theorem layout_rejects_wrong_shape (fuel : nat) (self : OCRAgentGPT4O) (image : ref)
    (langs : string) (w : World) (response : Response) (s : string) (v : pyval) :
  layout_answer fuel self image w response ->
  has_content response (Some s) ->
  s <> "" ->
  json_loads s = inr v ->
  (isinstance_dict v = false ->
     (get_layout_from_image fuel self image langs w).1 =
       Raise (ValueError "Expected a dictionary object for the response content."))
  /\ (forall items, v = PDict items -> (1 < length items)%nat ->
        (get_layout_from_image fuel self image langs w).1 =
          Raise (ValueError "Expected a dictionary object with one key-value pair.")).
Proof.
  intros Hanswer Hcontent Hs Hv.
  rewrite (get_layout_from_image_outcome _ _ _ _ _ _ _ Hanswer Hcontent).
  rewrite (py_not_nonempty _ Hs). change (default "" (Some s)) with s. rewrite Hv. split.
  - intros Hdict. destruct v; try reflexivity. discriminate.
  - intros items -> Hlen. now destruct (decide (1 < length items)%nat).
Qed.

(** ** C10 *)

(** C10. When the content parses to a dict with no key,
    [get_layout_from_image] raises a [ValueError]: taking the first of no
    value fails, and the handler of lines 129-132 raises in its place. *)
Theorem layout_rejects_empty_object (fuel : nat) (self : OCRAgentGPT4O) (image : ref)
    (langs : string) (w : World) (response : Response) (s : string) :
  layout_answer fuel self image w response ->
  has_content response (Some s) ->
  s <> "" ->
  json_loads s = inr (PDict []) ->
  (get_layout_from_image fuel self image langs w).1 =
    Raise (ValueError
      "Error while extracting the paragraph list from the response content.").
Proof.
  intros Hanswer Hcontent Hs Hv.
  rewrite (get_layout_from_image_outcome _ _ _ _ _ _ _ Hanswer Hcontent).
  rewrite (py_not_nonempty _ Hs). change (default "" (Some s)) with s. now rewrite Hv.
Qed.

(** ** C5 *)

Lemma text_regions_lookup (paragraphs : list pyval) (i : nat) :
  text_regions paragraphs !! i =
    (fun p => mkTextRegion
       (mkRectangle (Z.of_nat i) (Z.of_nat i) (Z.of_nat i + 1) (Z.of_nat i + 1)) p OCR_GPT4O)
    <$> paragraphs !! i.
Proof.
  unfold text_regions, enumerate.
  rewrite list_lookup_fmap, list_lookup_imap. now destruct (paragraphs !! i).
Qed.

Lemma text_regions_length (paragraphs : list pyval) :
  length (text_regions paragraphs) = length paragraphs.
Proof. unfold text_regions, enumerate. now rewrite length_fmap, length_imap. Qed.

Lemma text_regions_text (paragraphs : list pyval) :
  text <$> text_regions paragraphs = paragraphs.
Proof.
  apply list_eq. intros i. rewrite list_lookup_fmap, text_regions_lookup.
  now destruct (paragraphs !! i).
Qed.

(** C5. When the content parses to a dict of one key whose value is a
    list of [n] paragraphs, [get_layout_from_image] returns [n] regions
    in the order of the list: the i-th has the i-th paragraph for text,
    the square from (i, i) to (i + 1, i + 1) for bbox and [OCR_GPT4O] for
    source.  For the list of "a" and "b": two regions, texts "a" then
    "b". *)
Theorem layout_one_region_per_paragraph (fuel : nat) (self : OCRAgentGPT4O)
    (image : ref) (langs : string) (w : World) (response : Response) (s key : string)
    (paragraphs : list pyval) :
  layout_answer fuel self image w response ->
  has_content response (Some s) ->
  s <> "" ->
  json_loads s = inr (PDict [(key, PList paragraphs)]) ->
  exists regions,
    (get_layout_from_image fuel self image langs w).1 = Return regions /\
    length regions = length paragraphs /\
    (forall (i : nat) p, paragraphs !! i = Some p ->
       regions !! i =
         Some (mkTextRegion
                 (mkRectangle (Z.of_nat i) (Z.of_nat i) (Z.of_nat i + 1) (Z.of_nat i + 1))
                 p OCR_GPT4O)) /\
    (paragraphs = [PStr "a"; PStr "b"] ->
       regions =
         [ mkTextRegion (mkRectangle 0 0 1 1) (PStr "a") OCR_GPT4O;
           mkTextRegion (mkRectangle 1 1 2 2) (PStr "b") OCR_GPT4O ]).
Proof.
  intros Hanswer Hcontent Hs Hv. exists (text_regions paragraphs).
  rewrite (get_layout_from_image_outcome _ _ _ _ _ _ _ Hanswer Hcontent).
  rewrite (py_not_nonempty _ Hs). change (default "" (Some s)) with s. rewrite Hv.
  split; [reflexivity|]. split; [apply text_regions_length|]. split.
  - intros i p Hp. now rewrite text_regions_lookup, Hp.
  - now intros ->.
Qed.

(** ** C2 *)

Lemma length_list_ascii_of_string (t : string) :
  length (String.list_ascii_of_string t) = String.length t.
Proof. induction t as [|c t IH]; simpl; congruence. Qed.

(** C2. When the content parses to a dict of one key, the value
    is iterated, whatever it is, and no [ValueError] is raised for a
    value that is not a list: a str gives one region per character, in
    order, a dict one region per key, and [None], a boolean or a number
    makes the iteration raise a [TypeError], which is not caught. *)
Theorem layout_iterates_sole_value (fuel : nat) (self : OCRAgentGPT4O) (image : ref)
    (langs : string) (w : World) (response : Response) (s key : string) (v : pyval) :
  layout_answer fuel self image w response ->
  has_content response (Some s) ->
  s <> "" ->
  json_loads s = inr (PDict [(key, v)]) ->
  (forall items, v <> PList items) ->
  (forall msg, (get_layout_from_image fuel self image langs w).1 <> Raise (ValueError msg))
  /\ (forall t, v = PStr t ->
        exists regions,
          (get_layout_from_image fuel self image langs w).1 = Return regions /\
          length regions = String.length t /\
          text <$> regions =
            (fun c => PStr (String c EmptyString)) <$> String.list_ascii_of_string t)
  /\ (forall d, v = PDict d ->
        exists regions,
          (get_layout_from_image fuel self image langs w).1 = Return regions /\
          text <$> regions = PStr <$> d.*1)
  /\ (v = PNone \/ (exists b, v = PBool b) \/ (exists n, v = PInt n) \/
      (exists lit, v = PFloat lit) ->
        (get_layout_from_image fuel self image langs w).1 =
          Raise (TypeError
            (String.append "'" (String.append (py_type_name v) "' object is not iterable")))).
Proof.
  intros Hanswer Hcontent Hs Hv Hnolist.
  rewrite (get_layout_from_image_outcome _ _ _ _ _ _ _ Hanswer Hcontent).
  rewrite (py_not_nonempty _ Hs). change (default "" (Some s)) with s. rewrite Hv.
  cbn [length dict_values fmap list_fmap snd].
  destruct (decide (1 < 1)%nat); [lia|].
  split; [|split; [|split]].
  - intros msg. destruct v; cbn; congruence.
  - intros t ->. cbn. eexists. split; [reflexivity|].
    rewrite text_regions_length, length_fmap, length_list_ascii_of_string.
    split; [reflexivity | apply text_regions_text].
  - intros d ->. cbn. eexists. split; [reflexivity | apply text_regions_text].
  - intros [-> | [[b ->] | [[z ->] | [lit ->]]]]; reflexivity.
Qed.

(** ** C4 *)

(** C4. The encoding loop of [get_layout_from_image], for an image [img]
    in the store.
    - If its encoding is at or under the limit, the image is encoded
      once and never resized.
    - An iteration, entered over the limit, resizes the current image to
      three quarters of its width and of its height (each rounded toward
      zero, hence smaller when positive), and encodes the new image.
    - If the [k]-th resized image is the first whose encoding is at or
      under the limit, the call performs [k] resizes and [k + 1]
      encodings and moves on: the loop stops as soon as an encoding fits.
    - If after [k] iterations the encoding is still over the limit, the
      loop has not stopped: nothing bounds the number of iterations. *)
Theorem layout_resize_loop (self : OCRAgentGPT4O) (image : ref) (langs : string)
    (w : World) (img : Image) :
  heap w !! image = Some img ->
  (forall fuel png,
     pil_save_png img = inr png ->
     (bytes_len (b64encode png) <= LIMIT)%N ->
     exists events,
       trace (get_layout_from_image fuel self image langs w).2 = (trace w ++ events)%list /\
       count is_save events = 1%nat /\ count is_resize events = O)
  /\ (forall fuel encoded_image px png,
        (LIMIT < payload_len encoded_image)%N ->
        pil_resample img (scaled_size img) = inr px ->
        pil_save_png (scaled img px) = inr png ->
        resize_loop (S fuel) image encoded_image (size_mb encoded_image) w =
          resize_loop fuel (length (heap w)) (decode_utf8 (b64encode png))
            (size_mb (decode_utf8 (b64encode png)))
            {| heap := heap w ++ [scaled img px];
               oracle := oracle w;
               trace := trace w ++
                 [EvLog INFO "Image size: {img_size_mb:.2f} MB"
                    (ArgSize (size_mb encoded_image));
                  EvLog INFO "Image size too large for GPT-4 OCR. Resizing image to 75%."
                    NoArg;
                  EvResize image (scaled_size img);
                  EvSave (length (heap w))] |} /\
        scaled_size img = (three_quarters (width img), three_quarters (height img)) /\
        (0 < width img -> width (scaled img px) < width img) /\
        (0 < height img -> height (scaled img px) < height img))
  /\ (forall fuel k img' png',
        descends img k img' ->
        pil_save_png img' = inr png' ->
        (bytes_len (b64encode png') <= LIMIT)%N ->
        (k <= fuel)%nat ->
        (exists w1, encode_image fuel image w = (Return (decode_utf8 (b64encode png')), w1)) /\
        (exists events,
           trace (get_layout_from_image fuel self image langs w).2
             = (trace w ++ events)%list /\
           count is_save events = S k /\ count is_resize events = k) /\
        width img' = Nat.iter k three_quarters (width img) /\
        height img' = Nat.iter k three_quarters (height img))
  /\ (forall k img' png',
        descends img k img' ->
        pil_save_png img' = inr png' ->
        (LIMIT < bytes_len (b64encode png'))%N ->
        (get_layout_from_image k self image langs w).1 = OutOfFuel).
Proof.
  intros Himg.
  assert (forall fuel k img' png',
            descends img k img' ->
            pil_save_png img' = inr png' ->
            (bytes_len (b64encode png') <= LIMIT)%N ->
            (k <= fuel)%nat ->
            exists events,
              trace (get_layout_from_image fuel self image langs w).2
                = (trace w ++ events)%list /\
              count is_save events = S k /\ count is_resize events = k) as Hrun.
  { intros fuel k img' png' Hdesc Hpng' Hfit Hfuel.
    destruct (encode_image_descends fuel image w img k img' png' Himg Hdesc Hpng' Hfit Hfuel)
      as (w1 & events & Henc & Htr & Hs & Hr & _).
    pose proof (get_layout_from_image_after_encoding fuel self image langs w) as Htail.
    rewrite Henc in Htail. destruct Htail as (_ & _ & events' & Htr' & Hpast).
    exists (events ++ events')%list. rewrite Htr', Htr, app_assoc. split; [reflexivity|].
    rewrite !count_app, Hs, Hr.
    rewrite (count_none is_save), (count_none is_resize); [lia | |].
    - eapply Forall_impl; [exact Hpast|]. now intros e [_ ?].
    - eapply Forall_impl; [exact Hpast|]. now intros e [? _]. }
  split; [|split; [|split]].
  - intros fuel png Hpng Hfit.
    apply (Hrun fuel O img png (descends_O img) Hpng Hfit). lia.
  - intros fuel enc px png Hover Hpx Hpng. split; [|split; [|split]].
    + exact (resize_loop_iteration fuel image enc w img px png Hover Himg Hpx Hpng).
    + unfold scaled_size. now rewrite !py_int_three_quarters.
    + intros Hpos. rewrite scaled_width. now apply three_quarters_shrinks.
    + intros Hpos. rewrite scaled_height. now apply three_quarters_shrinks.
  - intros fuel k img' png' Hdesc Hpng' Hfit Hfuel. split; [|split].
    + destruct (encode_image_descends fuel image w img k img' png' Himg Hdesc Hpng' Hfit Hfuel)
        as (w1 & events & Henc & _). now exists w1.
    + now apply (Hrun fuel k img' png').
    + now apply descends_size.
  - intros k img' png' Hdesc Hpng' Hbig.
    destruct (encode_image_pending image w img k img' png' Himg Hdesc Hpng' Hbig)
      as (w1 & Henc).
    pose proof (get_layout_from_image_after_encoding k self image langs w) as Htail.
    rewrite Henc in Htail. now rewrite Htail.
Qed.

(** * Further properties *)

(** ** The runs, event by event *)

Lemma after_after w es1 es2 : after (after w es1) es2 = after w (es1 ++ es2).
Proof. unfold after. simpl. now rewrite app_assoc. Qed.

Lemma chat_completions_create_run client req w :
  chat_completions_create client req w =
    (match oracle w client req with inr response => Return response | inl e => Raise e end,
     after w [EvCreate client req]).
Proof.
  unfold chat_completions_create.
  rewrite (bind_Return _ _ _ _ _ (emit_run _ _)). cbn [after oracle].
  now destruct (oracle w client req).
Qed.

Lemma first_choice_content_run response w :
  first_choice_content response w =
    (match choices response with
     | [] => Raise (IndexError "list index out of range")
     | choice :: _ => Return (msg_content (message choice))
     end, w).
Proof. unfold first_choice_content. now destruct (choices response). Qed.

(** [get_text_from_image], whole: how it ends and what it leaves. *)
Lemma get_text_from_image_run self image langs w img :
  heap w !! image = Some img ->
  get_text_from_image self image langs w =
    match pil_save_png img with
    | inl e => (Raise e, after w [EvSave image])
    | inr png =>
        let req := text_request self (PayloadBytes (b64encode png)) in
        match oracle w (self_client self) req with
        | inl e => (Raise e, after w [EvSave image; EvCreate (self_client self) req])
        | inr response =>
            (match choices response with
             | [] => Raise (IndexError "list index out of range")
             | choice :: _ =>
                 Return (if py_not (msg_content (message choice)) then ""
                         else default "" (msg_content (message choice)))
             end,
             after w [EvSave image; EvCreate (self_client self) req;
                      EvLog INFO "OpenAI Response: {response}" (ArgResponse response)])
        end
    end.
Proof.
  intros Himg. unfold get_text_from_image.
  unfold bind at 1. rewrite (Image_save_png_run _ _ _ Himg).
  destruct (pil_save_png img) as [e|png]; [reflexivity|].
  unfold bind at 1. rewrite chat_completions_create_run. cbn [after oracle].
  destruct (oracle w (self_client self) _) as [e|response].
  { now rewrite after_after. }
  unfold logger_info. rewrite (bind_Return _ _ _ _ _ (emit_run _ _)).
  unfold bind. rewrite first_choice_content_run. rewrite !after_after.
  now destruct (choices response).
Qed.

Hint Extern 2 (emits _ (emit _)) => apply emits_emit; reflexivity : emits.
Hint Extern 2 (emits _ (chat_completions_create _ _)) =>
  apply emits_chat_completions_create; reflexivity : emits.

Lemma emits_Image_save_png_no_request image : emits no_request (Image_save_png image).
Proof. unfold Image_save_png. emits. Qed.

Lemma emits_Image_resize_no_request image size : emits no_request (Image_resize image size).
Proof. unfold Image_resize. emits. Qed.

Lemma emits_resize_loop_no_request fuel :
  forall image enc mb, emits no_request (resize_loop fuel image enc mb).
Proof.
  pose proof emits_Image_save_png_no_request. pose proof emits_Image_resize_no_request.
  induction fuel as [|fuel IH]; intros image enc mb; simpl;
    destruct (Qlt_le_dec 20 mb); emits.
Qed.

(** Encoding, resizing included, never calls the service. *)
Lemma emits_encode_image_no_request fuel image : emits no_request (encode_image fuel image).
Proof.
  unfold encode_image. pose proof (emits_resize_loop_no_request fuel).
  pose proof emits_Image_save_png_no_request. emits.
Qed.

(** [get_layout_from_image] from the point where the image is encoded:
    the size is logged, the request goes out, and what follows the
    answer, if one comes, is log lines only. *)
Lemma get_layout_from_image_run fuel self image langs w enc w1 :
  encode_image fuel image w = (Return enc, w1) ->
  match oracle w1 (self_client self) (layout_request self enc) with
  | inl e =>
      get_layout_from_image fuel self image langs w =
        (Raise e,
         after w1 [EvLog INFO "Image size: {len(encoded_image) / 1024 / 1024:.2f} MB"
                     (ArgSize (size_mb enc));
                   EvCreate (self_client self) (layout_request self enc)])
  | inr response =>
      extends only_logs
        (after w1 [EvLog INFO "Image size: {len(encoded_image) / 1024 / 1024:.2f} MB"
                     (ArgSize (size_mb enc));
                   EvCreate (self_client self) (layout_request self enc)])
        (get_layout_from_image fuel self image langs w).2
  end.
Proof.
  intros Henc.
  assert (forall T (k : Response -> M T),
            bind (chat_completions_create (self_client self) (layout_request self enc)) k
              (after w1 [EvLog INFO "Image size: {len(encoded_image) / 1024 / 1024:.2f} MB"
                           (ArgSize (size_mb enc))]) =
            match oracle w1 (self_client self) (layout_request self enc) with
            | inl e =>
                (Raise e,
                 after w1 [EvLog INFO "Image size: {len(encoded_image) / 1024 / 1024:.2f} MB"
                             (ArgSize (size_mb enc));
                           EvCreate (self_client self) (layout_request self enc)])
            | inr response =>
                k response
                  (after w1 [EvLog INFO "Image size: {len(encoded_image) / 1024 / 1024:.2f} MB"
                               (ArgSize (size_mb enc));
                             EvCreate (self_client self) (layout_request self enc)])
            end) as Hcall.
  { intros T k. unfold bind. rewrite chat_completions_create_run. cbn [after oracle].
    rewrite after_after. cbn [app].
    now destruct (oracle w1 (self_client self) (layout_request self enc)). }
  destruct (oracle w1 (self_client self) (layout_request self enc)) as [e|response];
    unfold get_layout_from_image;
    rewrite (bind_Return _ _ _ _ _ Henc);
    unfold logger_info at 1; rewrite (bind_Return _ _ _ _ _ (emit_run _ _));
    rewrite Hcall; [reflexivity|].
  match goal with |- extends ?P ?w2 (?m ?w2).2 => cut (emits P m); [intros Hm; apply Hm|] end.
  do 2 (apply emits_bind; [emits|]; intros ?).
  apply emits_bind.
  - destruct (py_not _); emits.
  - intros [| | | | | |items]; emits.
    destruct (decide _); emits.
Qed.

Lemma bind_inv_Return {A B} (m : M A) (k : A -> M B) w b w' :
  bind m k w = (Return b, w') ->
  exists a w1, m w = (Return a, w1) /\ k a w1 = (Return b, w').
Proof.
  unfold bind. destruct (m w) as [[a|e|] w1]; intros H; try discriminate. eauto.
Qed.

Lemma requests_app (t1 t2 : list Event) : requests (t1 ++ t2) = (requests t1 ++ requests t2)%list.
Proof. apply List.filter_app. Qed.

Lemma requests_none (P : Event -> Prop) (events : list Event) :
  (forall e, P e -> is_create e = false) -> Forall P events -> requests events = [].
Proof.
  intros HP. unfold requests. induction 1 as [|e es He _ IH]; [reflexivity|].
  simpl. now rewrite (HP e He).
Qed.

Lemma only_logs_no_request e : only_logs e -> is_create e = false.
Proof. now destruct e. Qed.

(** ** The text is the content, as it came *)

(** X1. [get_text_from_image] returns a content that is not empty exactly as
    the service gave it. *)
Theorem get_text_returns_content (self : OCRAgentGPT4O) (image : ref) (langs : string)
    (w : World) (response : Response) (s : string) :
  text_answer self image w response ->
  has_content response (Some s) ->
  s <> "" ->
  (get_text_from_image self image langs w).1 = Return s.
Proof.
  intros Hanswer Hcontent Hs.
  rewrite (get_text_from_image_outcome _ _ _ _ _ _ Hanswer Hcontent).
  now rewrite (py_not_nonempty _ Hs).
Qed.

(** ** What [get_text_from_image] does *)

(** X2. One encoding, no resize, no new image, and one request, carrying the
    whole encoding as bytes, if and only if the image could be encoded:
    this path has no size limit. *)
Theorem get_text_effects (self : OCRAgentGPT4O) (image : ref) (langs : string)
    (w : World) (img : Image) :
  heap w !! image = Some img ->
  exists events,
    (get_text_from_image self image langs w).2 = after w events /\
    count is_save events = 1%nat /\
    count is_resize events = O /\
    requests events =
      match pil_save_png img with
      | inl _ => []
      | inr png =>
          [EvCreate (self_client self) (text_request self (PayloadBytes (b64encode png)))]
      end.
Proof.
  intros Himg. rewrite (get_text_from_image_run self image langs w img Himg).
  destruct (pil_save_png img) as [e|png].
  { eexists. split; [reflexivity|]. repeat split. }
  cbv zeta.
  destruct (oracle w (self_client self) _) as [e|response].
  { eexists. split; [reflexivity|]. repeat split. }
  eexists. split; [reflexivity|]. repeat split.
Qed.

(** ** Requests of [get_layout_from_image] *)

(** X3. Whatever happens, [get_layout_from_image] sends one request if the
    encoding loop returns, the request built from the encoding it
    returned, and none otherwise. *)
Theorem get_layout_requests (fuel : nat) (self : OCRAgentGPT4O) (image : ref)
    (langs : string) (w : World) :
  exists events,
    trace (get_layout_from_image fuel self image langs w).2 = (trace w ++ events)%list /\
    requests events =
      match (encode_image fuel image w).1 with
      | Return enc => [EvCreate (self_client self) (layout_request self enc)]
      | _ => []
      end.
Proof.
  destruct (emits_encode_image_no_request fuel image w) as (_ & _ & ev1 & Htr1 & Hno1).
  pose proof (get_layout_from_image_after_encoding fuel self image langs w) as Hstop.
  destruct (encode_image fuel image w) as [[enc|e|] w1] eqn:Henc; cbn [fst snd] in *.
  - pose proof (get_layout_from_image_run fuel self image langs w enc w1 Henc) as Hrun.
    destruct (oracle w1 (self_client self) (layout_request self enc)) as [e|response].
    + rewrite Hrun. cbn [snd after trace]. rewrite Htr1, <- app_assoc.
      eexists. split; [reflexivity|].
      rewrite requests_app, (requests_none no_request ev1); auto.
    + destruct Hrun as (_ & _ & ev2 & Htr2 & Hlogs).
      rewrite Htr2. cbn [after trace]. rewrite Htr1, <- !app_assoc.
      eexists. split; [reflexivity|].
      rewrite !requests_app, (requests_none no_request ev1) by auto.
      rewrite (requests_none only_logs ev2) by auto using only_logs_no_request.
      reflexivity.
  - rewrite Hstop. cbn [snd]. exists ev1. split; [exact Htr1|].
    apply (requests_none no_request); auto.
  - rewrite Hstop. cbn [snd]. exists ev1. split; [exact Htr1|].
    apply (requests_none no_request); auto.
Qed.

(** ** The payload sent fits the limit *)

Lemma resize_loop_within_limit fuel :
  forall image enc w enc' w',
    resize_loop fuel image enc (size_mb enc) w = (Return enc', w') ->
    (payload_len enc' <= LIMIT)%N.
Proof.
  induction fuel as [|fuel IH]; intros image enc w enc' w' H; simpl in H;
    destruct (Qlt_le_dec 20 (size_mb enc)) as [Hq|Hq].
  - discriminate.
  - injection H as <- _. destruct (N.le_gt_cases (payload_len enc) LIMIT) as [|Hgt]; [easy|].
    apply over_limit in Hgt. now apply Qle_not_lt in Hq.
  - unfold logger_info in H.
    apply bind_inv_Return in H as (? & ? & _ & H).
    apply bind_inv_Return in H as (? & ? & _ & H).
    apply bind_inv_Return in H as (? & ? & _ & H).
    apply bind_inv_Return in H as (? & ? & _ & H).
    apply bind_inv_Return in H as (? & ? & _ & H).
    apply bind_inv_Return in H as (? & ? & _ & H).
    exact (IH _ _ _ _ _ H).
  - injection H as <- _. destruct (N.le_gt_cases (payload_len enc) LIMIT) as [|Hgt]; [easy|].
    apply over_limit in Hgt. now apply Qle_not_lt in Hq.
Qed.

(** What the encoding loop returns is a str of at most 20 MiB. *)
Lemma encode_image_within_limit fuel image w enc w1 :
  encode_image fuel image w = (Return enc, w1) -> (payload_len enc <= LIMIT)%N.
Proof.
  unfold encode_image. intros H.
  apply bind_inv_Return in H as (png & w0 & _ & H).
  exact (resize_loop_within_limit _ _ _ _ _ _ H).
Qed.

(** X4. Every request [get_layout_from_image] sends goes to the agent's
    client and carries an encoding of at most 20 MiB of base64 text. *)
Theorem layout_request_within_limit (fuel : nat) (self : OCRAgentGPT4O) (image : ref)
    (langs : string) (w : World) (events : list Event) (client : OpenAI) (req : Request) :
  trace (get_layout_from_image fuel self image langs w).2 = (trace w ++ events)%list ->
  In (EvCreate client req) events ->
  exists enc,
    client = self_client self /\ req = layout_request self enc /\
    (payload_len enc <= LIMIT)%N.
Proof.
  intros Htr Hin.
  destruct (get_layout_requests fuel self image langs w) as (events' & Htr' & Hreq).
  rewrite Htr in Htr'. apply app_inv_head in Htr'. subst events'.
  assert (In (EvCreate client req) (requests events)) as Hin'.
  { apply List.filter_In. now split. }
  rewrite Hreq in Hin'.
  destruct (encode_image fuel image w) as [[enc|e|] w1] eqn:Henc; cbn [fst] in Hin';
    try contradiction.
  destruct Hin' as [Heq|[]]. injection Heq as <- <-.
  exists enc. repeat split. exact (encode_image_within_limit _ _ _ _ _ Henc).
Qed.

(** ** The loop ends when PIL refuses an empty size *)

Lemma Image_resize_refused image img size e w :
  heap w !! image = Some img ->
  pil_resample img size = inl e ->
  Image_resize image size w = (Raise e, after w [EvResize image size]).
Proof.
  intros H He. unfold Image_resize.
  rewrite (bind_Return _ _ _ _ _ (deref_run _ _ _ H)).
  rewrite (bind_Return _ _ _ _ _ (emit_run _ _)).
  unfold bind. now rewrite He.
Qed.

(** Each iteration asks for a strictly smaller width, and PIL refuses
    width zero: the loop cannot go on for more iterations than the image
    is wide. *)
Lemma resize_loop_halts :
  pil_refuses_empty_size ->
  forall fuel image enc w img,
    heap w !! image = Some img ->
    (Z.to_nat (width img) < fuel)%nat ->
    (resize_loop fuel image enc (size_mb enc) w).1 <> OutOfFuel.
Proof.
  intros Hpil. induction fuel as [|fuel IH]; intros image enc w img Himg Hfuel; [lia|].
  destruct (N.le_gt_cases (payload_len enc) LIMIT) as [Hfit|Hover].
  { now rewrite resize_loop_fits. }
  destruct (pil_resample img (scaled_size img)) as [e|px] eqn:Hpx.
  { simpl. destruct (Qlt_le_dec 20 (size_mb enc)) as [_|Hq].
    2:{ apply over_limit in Hover. now apply Qle_not_lt in Hq. }
    unfold logger_info. do 4 step.
    erewrite bind_Raise; [discriminate|].
    eapply Image_resize_refused; eassumption. }
  assert (1 <= three_quarters (width img)) as Hw.
  { destruct (Z.lt_ge_cases (three_quarters (width img)) 1) as [Hlt|]; [|lia].
    destruct (Hpil img (scaled_size img)) as [e He]; [|congruence].
    left. unfold scaled_size. cbn [fst]. now rewrite py_int_three_quarters. }
  assert (0 < width img) as Hpos.
  { destruct (Z.lt_ge_cases 0 (width img)) as [|Hneg]; [assumption|].
    unfold three_quarters in Hw.
    assert (Z.quot (3 * width img) 4 <= 0); [|lia].
    apply Z.quot_le_upper_bound; lia. }
  destruct (pil_save_png (scaled img px)) as [e|png] eqn:Hpng.
  { simpl. destruct (Qlt_le_dec 20 (size_mb enc)) as [_|Hq].
    2:{ apply over_limit in Hover. now apply Qle_not_lt in Hq. }
    unfold logger_info. do 5 step. cbn [after heap oracle trace].
    erewrite bind_Raise; [discriminate|].
    rewrite (Image_save_png_run _ (scaled img px)); [|apply lookup_fresh].
    now rewrite Hpng. }
  rewrite (resize_loop_iteration fuel image enc w img px png Hover Himg Hpx Hpng).
  apply (IH _ _ _ (scaled img px)); [apply lookup_fresh|].
  rewrite scaled_width. pose proof (three_quarters_shrinks (width img) Hpos). lia.
Qed.

Lemma halts_ret {A} (a : A) : halts (ret a).
Proof. intros w. discriminate. Qed.

Lemma halts_raise {A} (e : exn) : halts (@raise _ A e).
Proof. intros w. discriminate. Qed.

Lemma halts_lift {A} (r : exn + A) : halts (lift r).
Proof. destruct r; intros w; discriminate. Qed.

Lemma halts_emit e : halts (emit e).
Proof. intros w. discriminate. Qed.

Lemma halts_bind {A B} (m : M A) (k : A -> M B) :
  halts m -> (forall a, halts (k a)) -> halts (bind m k).
Proof.
  intros Hm Hk w. unfold bind. specialize (Hm w).
  destruct (m w) as [[a|e|] w']; cbn [fst] in *; [apply Hk | discriminate | contradiction].
Qed.

Lemma halts_try_except {A} (m : M A) (handler : exn -> M A) :
  halts m -> (forall e, halts (handler e)) -> halts (try_except m handler).
Proof.
  intros Hm Hh w. unfold try_except. specialize (Hm w).
  destruct (m w) as [[a|e|] w']; cbn [fst] in *; [discriminate | apply Hh | contradiction].
Qed.

Lemma halts_chat_completions_create client req : halts (chat_completions_create client req).
Proof.
  intros w. rewrite chat_completions_create_run. now destruct (oracle w client req).
Qed.

Lemma halts_first_choice_content response : halts (first_choice_content response).
Proof. intros w. rewrite first_choice_content_run. now destruct (choices response). Qed.

Create HintDb halts discriminated.
Hint Resolve halts_ret halts_raise halts_lift halts_emit halts_chat_completions_create
  halts_first_choice_content : halts.
Hint Extern 2 (halts (bind _ _)) => apply halts_bind; [ | intros ? ] : halts.
Hint Extern 2 (halts (try_except _ _)) => apply halts_try_except; [ | intros ? ] : halts.

(** If [get_layout_from_image] is still running, it is in the loop. *)
Lemma get_layout_from_image_pending fuel self image langs w :
  (get_layout_from_image fuel self image langs w).1 = OutOfFuel ->
  (encode_image fuel image w).1 = OutOfFuel.
Proof.
  unfold get_layout_from_image. intros H.
  destruct (encode_image fuel image w) as [[enc|e|] w1] eqn:Henc; [|
    rewrite (bind_Raise _ _ _ _ _ Henc) in H; discriminate | reflexivity].
  rewrite (bind_Return _ _ _ _ _ Henc) in H. exfalso. revert H.
  match goal with |- (?m ?w1).1 = _ -> _ => cut (halts m); [intros Hm; apply Hm|] end.
  unfold logger_info, logger_error.
  do 4 (apply halts_bind; [auto with halts|]; intros ?).
  apply halts_bind.
  - destruct (py_not _); auto with halts.
  - intros [| | | | | |items]; auto 20 with halts.
    destruct (decide _); auto 20 with halts.
Qed.

Lemma bind_def_save {B} image img w (k : Bytes -> M B) :
  heap w !! image = Some img ->
  bind (Image_save_png image) k w =
    match pil_save_png img with
    | inl e => (Raise e, after w [EvSave image])
    | inr png => k png (after w [EvSave image])
    end.
Proof.
  intros Himg. unfold bind. rewrite (Image_save_png_run _ _ _ Himg).
  now destruct (pil_save_png img).
Qed.

(** X5. With PIL refusing an empty size, [get_layout_from_image] ends, by
    returning or by raising, within as many iterations as the image is
    wide. *)
Theorem layout_terminates (fuel : nat) (self : OCRAgentGPT4O) (image : ref)
    (langs : string) (w : World) (img : Image) :
  pil_refuses_empty_size ->
  heap w !! image = Some img ->
  (Z.to_nat (width img) < fuel)%nat ->
  (get_layout_from_image fuel self image langs w).1 <> OutOfFuel.
Proof.
  intros Hpil Himg Hfuel Hout. apply get_layout_from_image_pending in Hout.
  revert Hout. unfold encode_image.
  rewrite (bind_def_save image img w _ Himg).
  destruct (pil_save_png img) as [e|png]; [discriminate|].
  exact (resize_loop_halts Hpil fuel image (decode_utf8 (b64encode png))
           (after w [EvSave image]) img Himg Hfuel).
Qed.

(** ** Regions are keyed by position *)

Lemma get_layout_from_image_returns fuel self image langs w regions w' :
  get_layout_from_image fuel self image langs w = (Return regions, w') ->
  exists paragraphs, regions = text_regions paragraphs.
Proof.
  unfold get_layout_from_image, logger_info, logger_error. intros H.
  do 6 (apply bind_inv_Return in H as (? & ? & _ & H)).
  match type of H with context [match ?v with _ => _ end] => destruct v end;
    try (apply bind_inv_Return in H as (? & ? & _ & H); discriminate).
  destruct (decide _).
  { apply bind_inv_Return in H as (? & ? & _ & H). discriminate. }
  do 2 (apply bind_inv_Return in H as (? & ? & _ & H)).
  injection H as <- _. eauto.
Qed.

Lemma square_inj i j : square i = square j -> i = j.
Proof. unfold square. intros H. injection H as H _. lia. Qed.

(** X6. Whatever the service answered, the regions [get_layout_from_image]
    returns are keyed by position: the i-th has the unit square at (i, i)
    for bbox and [OCR_GPT4O] for source, so no two regions share a bbox. *)
Theorem layout_regions_keyed_by_position (fuel : nat) (self : OCRAgentGPT4O)
    (image : ref) (langs : string) (w w' : World) (regions : list TextRegion) :
  get_layout_from_image fuel self image langs w = (Return regions, w') ->
  (forall i r, regions !! i = Some r -> bbox r = square i /\ source r = OCR_GPT4O)
  /\ (forall i j ri rj,
        regions !! i = Some ri -> regions !! j = Some rj -> bbox ri = bbox rj -> i = j).
Proof.
  intros H. apply get_layout_from_image_returns in H as [paragraphs ->].
  assert (forall i r, text_regions paragraphs !! i = Some r ->
            bbox r = square i /\ source r = OCR_GPT4O) as Hkey.
  { intros i r. rewrite text_regions_lookup.
    destruct (paragraphs !! i); intros Hr; [|discriminate].
    injection Hr as <-. now split. }
  split; [exact Hkey|].
  intros i j ri rj Hi Hj Heq.
  apply Hkey in Hi as [Hi _]. apply Hkey in Hj as [Hj _].
  apply square_inj. congruence.
Qed.

(** ** Construction *)

(** X7. [__init__] returns an agent exactly when [OPENAI_API_KEY] is set to
    a non-empty value: the agent then holds the model name gpt-4o and a
    client with that key, and the world is as it was. *)
Theorem init_returns_iff (environ : gmap string string) (w w' : World)
    (agent : OCRAgentGPT4O) :
  __init__ environ w = (Return agent, w') <->
  w' = w /\ self_model agent = "gpt-4o" /\
  environ !! OPENAI_API_KEY = Some (api_key (self_client agent)) /\
  api_key (self_client agent) <> "".
Proof.
  unfold __init__. split.
  - destruct (environ !! OPENAI_API_KEY) as [key|]; [|discriminate].
    destruct (decide (key ≠ "")) as [Hkey|]; [|discriminate].
    intros H. injection H as <- <-. now repeat split.
  - intros (-> & Hmodel & -> & Hkey).
    destruct (decide (api_key (self_client agent) ≠ "")) as [_|]; [|contradiction].
    destruct agent as [m [k]]. cbn in *. now subst m.
Qed.

(** ** Sizes along the loop *)

Lemma three_quarters_bound (n : Z) : 0 <= n -> 0 <= three_quarters n /\ 4 * three_quarters n <= 3 * n.
Proof.
  intros H. unfold three_quarters. rewrite Z.quot_div_nonneg by lia.
  pose proof (Z.div_mod (3 * n) 4). pose proof (Z.mod_pos_bound (3 * n) 4).
  split; [apply Z.div_pos; lia | lia].
Qed.

(** X8. After [k] iterations the image is at most (3/4)^k as wide and as
    high as it was, and never of negative size. *)
Theorem descends_geometric (img img' : Image) (k : nat) :
  descends img k img' ->
  0 <= width img -> 0 <= height img ->
  0 <= width img' /\ 4 ^ Z.of_nat k * width img' <= 3 ^ Z.of_nat k * width img /\
  0 <= height img' /\ 4 ^ Z.of_nat k * height img' <= 3 ^ Z.of_nat k * height img.
Proof.
  induction 1 as [img | img png px k img' _ _ _ _ IH]; intros Hw Hh.
  - cbn. lia.
  - destruct (three_quarters_bound (width img) Hw) as [Hw0 Hw1].
    destruct (three_quarters_bound (height img) Hh) as [Hh0 Hh1].
    rewrite <- (scaled_width img px) in Hw0, Hw1.
    rewrite <- (scaled_height img px) in Hh0, Hh1.
    destruct (IH Hw0 Hh0) as (IHw0 & IHw1 & IHh0 & IHh1).
    rewrite Nat2Z.inj_succ, !Z.pow_succ_r by lia.
    assert (0 <= 3 ^ Z.of_nat k) by (apply Z.pow_nonneg; lia).
    repeat split; try assumption; nia.
Qed.

(** ** Errors that pass through *)

(** X9. An error of the service is not caught: the call raises it as it is,
    right after the request, with nothing logged after it. *)
Theorem service_error_propagates (fuel : nat) (self : OCRAgentGPT4O) (image : ref)
    (langs : string) (w : World) (e : exn) :
  (forall img png,
     heap w !! image = Some img ->
     pil_save_png img = inr png ->
     oracle w (self_client self) (text_request self (PayloadBytes (b64encode png))) = inl e ->
     get_text_from_image self image langs w =
       (Raise e,
        after w [EvSave image;
                 EvCreate (self_client self)
                   (text_request self (PayloadBytes (b64encode png)))]))
  /\ (forall enc w1,
        encode_image fuel image w = (Return enc, w1) ->
        oracle w1 (self_client self) (layout_request self enc) = inl e ->
        get_layout_from_image fuel self image langs w =
          (Raise e,
           after w1 [EvLog INFO "Image size: {len(encoded_image) / 1024 / 1024:.2f} MB"
                       (ArgSize (size_mb enc));
                     EvCreate (self_client self) (layout_request self enc)])).
Proof.
  split.
  - intros img png Himg Hpng He.
    rewrite (get_text_from_image_run self image langs w img Himg), Hpng.
    cbv zeta. now rewrite He.
  - intros enc w1 Henc He.
    pose proof (get_layout_from_image_run fuel self image langs w enc w1 Henc) as Hrun.
    now rewrite He in Hrun.
Qed.

(** X10. A content that [json.loads] rejects makes [get_layout_from_image]
    raise the error of [json.loads] itself. *)
Theorem json_error_propagates (fuel : nat) (self : OCRAgentGPT4O) (image : ref)
    (langs : string) (w : World) (response : Response) (s : string) (e : exn) :
  layout_answer fuel self image w response ->
  has_content response (Some s) ->
  s <> "" ->
  json_loads s = inl e ->
  (get_layout_from_image fuel self image langs w).1 = Raise e.
Proof.
  intros Hanswer Hcontent Hs He.
  rewrite (get_layout_from_image_outcome _ _ _ _ _ _ _ Hanswer Hcontent).
  rewrite (py_not_nonempty _ Hs). change (default "" (Some s)) with s. now rewrite He.
Qed.

(** X11. An answer with no choice makes both extractions raise [IndexError]. *)
Theorem no_choice_raises_index_error (fuel : nat) (self : OCRAgentGPT4O) (image : ref)
    (langs : string) (w : World) (response : Response) :
  choices response = [] ->
  (text_answer self image w response ->
     (get_text_from_image self image langs w).1 =
       Raise (IndexError "list index out of range"))
  /\ (layout_answer fuel self image w response ->
        (get_layout_from_image fuel self image langs w).1 =
          Raise (IndexError "list index out of range")).
Proof.
  intros Hnone. split.
  - intros (png & w1 & Hpng & Horacle). unfold get_text_from_image.
    rewrite (bind_Return _ _ _ _ _ Hpng).
    unfold bind at 1. rewrite chat_completions_create_run, Horacle.
    unfold logger_info. rewrite (bind_Return _ _ _ _ _ (emit_run _ _)).
    unfold bind. now rewrite first_choice_content_run, Hnone.
  - intros (enc & w1 & Henc & Horacle). unfold get_layout_from_image.
    rewrite (bind_Return _ _ _ _ _ Henc).
    unfold logger_info. rewrite (bind_Return _ _ _ _ _ (emit_run _ _)).
    unfold bind at 1. rewrite chat_completions_create_run. cbn [after oracle].
    rewrite Horacle.
    rewrite (bind_Return _ _ _ _ _ (emit_run _ _)).
    unfold bind at 1. now rewrite first_choice_content_run, Hnone.
Qed.

(** X12. An image PIL cannot write makes every extraction raise PIL's error
    after the one attempt to encode, with no request sent. *)
Theorem save_error_propagates (fuel : nat) (self : OCRAgentGPT4O) (image : ref)
    (langs : string) (w : World) (img : Image) (e : exn) :
  heap w !! image = Some img ->
  pil_save_png img = inl e ->
  get_text_from_image self image langs w = (Raise e, after w [EvSave image])
  /\ get_layout_from_image fuel self image langs w = (Raise e, after w [EvSave image])
  /\ get_layout_elements_from_image fuel self image langs w
     = (Raise e, after w [EvSave image]).
Proof.
  intros Himg He.
  assert (get_layout_from_image fuel self image langs w = (Raise e, after w [EvSave image]))
    as Hlayout.
  { unfold get_layout_from_image, encode_image.
    apply bind_Raise. rewrite (bind_def_save _ _ _ _ Himg). now rewrite He. }
  split; [|split].
  - rewrite (get_text_from_image_run self image langs w img Himg). now rewrite He.
  - exact Hlayout.
  - unfold get_layout_elements_from_image. now apply bind_Raise.
Qed.

(** X13. A resize PIL refuses ends [get_layout_from_image] in PIL's error,
    with no request sent. *)
Theorem resize_error_propagates (fuel : nat) (self : OCRAgentGPT4O) (image : ref)
    (langs : string) (w : World) (img : Image) (png : Bytes) (e : exn) :
  heap w !! image = Some img ->
  pil_save_png img = inr png ->
  (LIMIT < bytes_len (b64encode png))%N ->
  pil_resample img (scaled_size img) = inl e ->
  exists events,
    get_layout_from_image (S fuel) self image langs w = (Raise e, after w events) /\
    requests events = [].
Proof.
  intros Himg Hpng Hover He.
  eexists. split.
  - unfold get_layout_from_image, encode_image. apply bind_Raise.
    rewrite (bind_def_save _ _ _ _ Himg), Hpng.
    simpl. destruct (Qlt_le_dec 20 _) as [_|Hq].
    2:{ apply Qle_not_lt in Hq. destruct Hq. now apply over_limit. }
    unfold logger_info. do 4 step.
    erewrite bind_Raise; [|eapply Image_resize_refused; eassumption].
    rewrite !after_after. reflexivity.
  - reflexivity.
Qed.

(** ** Shape errors are logged *)

(** X14. Each [ValueError] of the shape checks is raised right after an ERROR
    log line that carries the rejected value: the events since the image
    was encoded are the size line, the request, the response line, then
    that ERROR line (two for a dict with no key, the first carrying the
    [IndexError] caught).  A content that is null or empty is logged as
    the empty list put in its place. *)
Theorem shape_errors_are_logged (fuel : nat) (self : OCRAgentGPT4O) (image : ref)
    (langs : string) (w w1 : World) (enc : Payload) (response : Response)
    (content : option string) :
  encode_image fuel image w = (Return enc, w1) ->
  oracle w1 (self_client self) (layout_request self enc) = inr response ->
  has_content response content ->
  let sent :=
    [EvLog INFO "Image size: {len(encoded_image) / 1024 / 1024:.2f} MB"
       (ArgSize (size_mb enc));
     EvCreate (self_client self) (layout_request self enc);
     EvLog INFO "OpenAI Response: {response}" (ArgResponse response)] in
  (py_not content = true ->
     get_layout_from_image fuel self image langs w =
       (Raise (ValueError "Expected a dictionary object for the response content."),
        after w1 (sent ++
          [EvLog ERROR
             "Expected a dictionary object for the response content. Got: {paragraph_list}"
             (ArgValue (PList []))])))
  /\ (forall s v,
        content = Some s -> s <> "" -> json_loads s = inr v ->
        (isinstance_dict v = false ->
           get_layout_from_image fuel self image langs w =
             (Raise (ValueError "Expected a dictionary object for the response content."),
              after w1 (sent ++
                [EvLog ERROR
                   "Expected a dictionary object for the response content. Got: {paragraph_list}"
                   (ArgValue v)])))
        /\ (forall items, v = PDict items -> (1 < length items)%nat ->
              get_layout_from_image fuel self image langs w =
                (Raise (ValueError "Expected a dictionary object with one key-value pair."),
                 after w1 (sent ++
                   [EvLog ERROR
                      "Expected a dictionary object with one key-value pair. Got: {paragraph_list}"
                      (ArgValue v)])))
        /\ (v = PDict [] ->
              get_layout_from_image fuel self image langs w =
                (Raise (ValueError
                   "Error while extracting the paragraph list from the response content."),
                 after w1 (sent ++
                   [EvLog ERROR
                      "Error while extracting the paragraph list from the response content: {e}"
                      (ArgExn (IndexError "list index out of range"));
                    EvLog ERROR "Response content: {paragraph_list}" (ArgValue v)])))).
Proof.
  intros Henc Horacle (choice & rest & Hchoices & Hcontent) sent.
  assert (get_layout_from_image fuel self image langs w =
              bind (if py_not content then ret (PList [])
                    else lift (json_loads (default "" content)))
                (fun paragraph_list =>
                   match paragraph_list with
                   | PDict items =>
                       if decide (1 < length items)%nat then
                         bind (logger_error
                                 "Expected a dictionary object with one key-value pair. Got: {paragraph_list}"
                                 (ArgValue paragraph_list))
                           (fun _ => raise (ValueError
                              "Expected a dictionary object with one key-value pair."))
                       else
                         bind (try_except (lift (index0 (dict_values items)))
                                 (fun e =>
                                    bind (logger_error
                                            "Error while extracting the paragraph list from the response content: {e}"
                                            (ArgExn e))
                                      (fun _ =>
                                         bind (logger_error "Response content: {paragraph_list}"
                                                 (ArgValue paragraph_list))
                                           (fun _ => raise (ValueError
                                              "Error while extracting the paragraph list from the response content.")))))
                           (fun paragraph_list =>
                              bind (lift (py_iter paragraph_list))
                                (fun paragraphs => ret (text_regions paragraphs)))
                   | _ =>
                       bind (logger_error
                               "Expected a dictionary object for the response content. Got: {paragraph_list}"
                               (ArgValue paragraph_list))
                         (fun _ => raise (ValueError
                            "Expected a dictionary object for the response content."))
                   end)
                (after w1 sent)) as Hrun.
  { unfold get_layout_from_image.
    rewrite (bind_Return _ _ _ _ _ Henc).
    unfold logger_info. rewrite (bind_Return _ _ _ _ _ (emit_run _ _)).
    unfold bind at 1. rewrite chat_completions_create_run. cbn [after oracle].
    rewrite Horacle.
    rewrite (bind_Return _ _ _ _ _ (emit_run _ _)).
    unfold bind at 1. rewrite first_choice_content_run, Hchoices, Hcontent.
    rewrite !after_after. reflexivity. }
  rewrite Hrun. clear Hrun. subst sent.
  split.
  - intros ->. unfold bind, logger_error. cbn. unfold after; cbn; now repeat rewrite <- app_assoc.
  - intros s v -> Hs Hv. rewrite (py_not_nonempty _ Hs).
    change (default "" (Some s)) with s. rewrite Hv.
    split; [|split].
    + intros Hdict. destruct v; try discriminate;
        unfold bind, logger_error; cbn; unfold after; cbn; now repeat rewrite <- app_assoc.
    + intros items -> Hlen. unfold bind, logger_error. cbn.
      destruct (decide (1 < length items)%nat); [|contradiction].
      cbn. unfold after; cbn; now repeat rewrite <- app_assoc.
    + intros ->. unfold bind, logger_error, try_except. cbn.
      destruct (decide (1 < 0)%nat); [lia|].
      unfold after; cbn; now repeat rewrite <- app_assoc.
Qed.

End Properties.


(** * The claims on the concrete instance *)

#[local] Existing Instance Toy.collaborators.

(** On a small image the encoding fits at once and the service is asked. *)
Lemma toy_layout_answer (content : option string) :
  layout_answer 0 Toy.agent 0%nat (Toy.world 100 100 content) (Toy.answer content).
Proof. eexists _, _. split; reflexivity. Qed.

Lemma toy_text_answer (content : option string) :
  text_answer Toy.agent 0%nat (Toy.world 100 100 content) (Toy.answer content).
Proof. eexists _, _. split; reflexivity. Qed.

Lemma toy_has_content (content : option string) :
  has_content (Toy.answer content) content.
Proof. eexists _, _. split; reflexivity. Qed.

Lemma init_requires_credential_witness :
  (__init__ ∅ (Toy.world 100 100 None)).1 =
    Raise (AssertionError
      "Please set the OPENAI_API_KEY environment variable to use the OpenAI API.")
  /\ __init__ {[ OPENAI_API_KEY := "" ]} (Toy.world 100 100 None) =
       (Raise (AssertionError
          "Please set the OPENAI_API_KEY environment variable to use the OpenAI API."),
        Toy.world 100 100 None).
Proof.
  split.
  - destruct (init_requires_credential ∅ (Toy.world 100 100 None)) as [E _].
    + left. apply lookup_empty.
    + rewrite E. reflexivity.
  - apply (init_requires_credential {[ OPENAI_API_KEY := "" ]} (Toy.world 100 100 None)).
    right. apply lookup_singleton_eq.
Defined.

Lemma empty_content_text_returns_layout_raises_witness :
  (get_text_from_image Toy.agent 0%nat "eng" (Toy.world 100 100 None)).1 = Return ""
  /\ (get_layout_from_image 0 Toy.agent 0%nat "eng" (Toy.world 100 100 None)).1 =
       Raise (ValueError "Expected a dictionary object for the response content.")
  /\ (get_layout_from_image 0 Toy.agent 0%nat "eng" (Toy.world 100 100 (Some ""))).1 =
       Raise (ValueError "Expected a dictionary object for the response content.").
Proof.
  split; [|split].
  - apply (empty_content_text_returns_layout_raises 0 Toy.agent 0%nat "eng"
             (Toy.world 100 100 None) (Toy.answer None) None);
      [apply toy_has_content | now left | apply toy_text_answer].
  - apply (empty_content_text_returns_layout_raises 0 Toy.agent 0%nat "eng"
             (Toy.world 100 100 None) (Toy.answer None) None);
      [apply toy_has_content | now left | apply toy_layout_answer].
  - apply (empty_content_text_returns_layout_raises 0 Toy.agent 0%nat "eng"
             (Toy.world 100 100 (Some "")) (Toy.answer (Some "")) (Some ""));
      [apply toy_has_content | now right | apply toy_layout_answer].
Defined.

Lemma layout_rejects_wrong_shape_witness :
  (get_layout_from_image 0 Toy.agent 0%nat "eng" (Toy.world 100 100 (Some "[]"))).1 =
    Raise (ValueError "Expected a dictionary object for the response content.")
  /\ (get_layout_from_image 0 Toy.agent 0%nat "eng"
        (Toy.world 100 100 (Some Toy.doc_two))).1 =
       Raise (ValueError "Expected a dictionary object with one key-value pair.").
Proof.
  split.
  - apply (layout_rejects_wrong_shape 0 Toy.agent 0%nat "eng" (Toy.world 100 100 (Some "[]"))
             (Toy.answer (Some "[]")) "[]" (PList []));
      [apply toy_layout_answer | apply toy_has_content | discriminate
      | reflexivity | reflexivity].
  - destruct (layout_rejects_wrong_shape 0 Toy.agent 0%nat "eng"
             (Toy.world 100 100 (Some Toy.doc_two)) (Toy.answer (Some Toy.doc_two))
             Toy.doc_two
             (PDict [("paragraphs", PList [PStr "a"]); ("notes", PList [PStr "b"])]))
      as [_ Hkeys];
      [apply toy_layout_answer | apply toy_has_content | discriminate | reflexivity |].
    apply (Hkeys _ eq_refl). simpl. lia.
Defined.

Lemma layout_rejects_empty_object_witness :
  (get_layout_from_image 0 Toy.agent 0%nat "eng" (Toy.world 100 100 (Some "{}"))).1 =
    Raise (ValueError
      "Error while extracting the paragraph list from the response content.").
Proof.
  apply (layout_rejects_empty_object 0 Toy.agent 0%nat "eng" (Toy.world 100 100 (Some "{}"))
           (Toy.answer (Some "{}")) "{}");
    [apply toy_layout_answer | apply toy_has_content | discriminate | reflexivity].
Defined.

Lemma layout_one_region_per_paragraph_witness :
  exists regions,
    (get_layout_from_image 0 Toy.agent 0%nat "eng"
       (Toy.world 100 100 (Some Toy.doc_ab))).1 = Return regions /\
    length regions = 2%nat /\
    text <$> regions = [PStr "a"; PStr "b"].
Proof.
  destruct (layout_one_region_per_paragraph 0 Toy.agent 0%nat "eng"
              (Toy.world 100 100 (Some Toy.doc_ab)) (Toy.answer (Some Toy.doc_ab))
              Toy.doc_ab "paragraphs" [PStr "a"; PStr "b"])
    as (regions & Hrun & Hlen & _ & Hab);
    [apply toy_layout_answer | apply toy_has_content | discriminate | reflexivity |].
  exists regions. split; [exact Hrun|]. split; [exact Hlen|].
  rewrite (Hab eq_refl). reflexivity.
Defined.

(** The str "hi" under the one key: two regions come back, one per
    character, and no [ValueError]. *)
Lemma layout_sole_value_str_counterexample :
  json_loads Toy.doc_str = inr (PDict [("paragraphs", PStr "hi")])
  /\ (get_layout_from_image 0 Toy.agent 0%nat "eng"
        (Toy.world 100 100 (Some Toy.doc_str))).1 =
       Return [ mkTextRegion (mkRectangle 0 0 1 1) (PStr "h") OCR_GPT4O;
                mkTextRegion (mkRectangle 1 1 2 2) (PStr "i") OCR_GPT4O ]
  /\ ~ (exists msg,
          (get_layout_from_image 0 Toy.agent 0%nat "eng"
             (Toy.world 100 100 (Some Toy.doc_str))).1 = Raise (ValueError msg)).
Proof.
  assert ((get_layout_from_image 0 Toy.agent 0%nat "eng"
             (Toy.world 100 100 (Some Toy.doc_str))).1 =
            Return [ mkTextRegion (mkRectangle 0 0 1 1) (PStr "h") OCR_GPT4O;
                     mkTextRegion (mkRectangle 1 1 2 2) (PStr "i") OCR_GPT4O ]) as E
    by reflexivity.
  split; [reflexivity|]. split; [exact E|].
  intros [msg H]. rewrite E in H. discriminate H.
Qed.

Lemma layout_iterates_sole_value_witness :
  (exists regions,
     (get_layout_from_image 0 Toy.agent 0%nat "eng"
        (Toy.world 100 100 (Some Toy.doc_str))).1 = Return regions /\
     length regions = 2%nat /\
     text <$> regions = [PStr "h"; PStr "i"])
  /\ (get_layout_from_image 0 Toy.agent 0%nat "eng"
        (Toy.world 100 100 (Some Toy.doc_int))).1 =
       Raise (TypeError "'int' object is not iterable").
Proof.
  split.
  - destruct (layout_iterates_sole_value 0 Toy.agent 0%nat "eng"
                (Toy.world 100 100 (Some Toy.doc_str)) (Toy.answer (Some Toy.doc_str))
                Toy.doc_str "paragraphs" (PStr "hi"))
      as (_ & Hstr & _);
      [apply toy_layout_answer | apply toy_has_content | discriminate | reflexivity
      | discriminate |].
    exact (Hstr "hi" eq_refl).
  - destruct (layout_iterates_sole_value 0 Toy.agent 0%nat "eng"
                (Toy.world 100 100 (Some Toy.doc_int)) (Toy.answer (Some Toy.doc_int))
                Toy.doc_int "paragraphs" (PInt 17))
      as (_ & _ & _ & Hnum);
      [apply toy_layout_answer | apply toy_has_content | discriminate | reflexivity
      | discriminate |].
    apply Hnum. right. right. left. now exists 17.
Defined.

Lemma layout_elements_map_regions_witness :
  (exists elements,
     get_layout_elements_from_image 0 Toy.agent 0%nat "eng"
       (Toy.world 100 100 (Some Toy.doc_ab))
     = (Return elements,
        (get_layout_from_image 0 Toy.agent 0%nat "eng"
           (Toy.world 100 100 (Some Toy.doc_ab))).2) /\
     length elements = 2%nat /\
     elements !! 1%nat =
       Some {| Toy.le_bbox := mkRectangle 1 1 2 2;
               Toy.le_text := PStr "b";
               Toy.le_source := Toy.SRC_GPT4O;
               Toy.le_type := Toy.ET_UNCATEGORIZED_TEXT |})
  /\ (get_layout_elements_from_image 0 Toy.agent 0%nat "eng"
        (Toy.world 100 100 None)).1 =
       Raise (ValueError "Expected a dictionary object for the response content.").
Proof.
  split.
  - destruct (layout_elements_map_regions 0 Toy.agent 0%nat "eng"
                (Toy.world 100 100 (Some Toy.doc_ab))
                (get_layout_from_image 0 Toy.agent 0%nat "eng"
                   (Toy.world 100 100 (Some Toy.doc_ab))).2) as (Hret & _ & _).
    destruct (Hret [ mkTextRegion (mkRectangle 0 0 1 1) (PStr "a") OCR_GPT4O;
                     mkTextRegion (mkRectangle 1 1 2 2) (PStr "b") OCR_GPT4O ] eq_refl)
      as (elements & Hrun & Hlen & Hith).
    exists elements. split; [exact Hrun|]. split; [exact Hlen|].
    exact (Hith 1%nat _ eq_refl).
  - destruct (layout_elements_map_regions 0 Toy.agent 0%nat "eng"
                (Toy.world 100 100 None)
                (get_layout_from_image 0 Toy.agent 0%nat "eng"
                   (Toy.world 100 100 None)).2) as (_ & Hraise & _).
    now rewrite (Hraise _ eq_refl).
Defined.

Lemma images_never_mutated_witness :
  heap (get_layout_from_image 5 Toy.agent 0%nat "eng"
          (Toy.world 4000 4000 (Some Toy.doc_ab))).2 !! 0%nat
    = Some (mkImage 4000 4000 tt)
  /\ length (heap (get_layout_from_image 5 Toy.agent 0%nat "eng"
                     (Toy.world 4000 4000 (Some Toy.doc_ab))).2) = 4%nat.
Proof.
  split; [|reflexivity].
  apply (images_never_mutated 5 Toy.agent 0%nat "eng"
           (Toy.world 4000 4000 (Some Toy.doc_ab)) (mkImage 4000 4000 tt)).
  reflexivity.
Defined.

Lemma toy_descends :
  descends (mkImage 4000 4000 tt) 3 (mkImage 1687 1687 tt).
Proof.
  eapply (descends_S (C:=Toy.collaborators) _ _ tt); [reflexivity | reflexivity | reflexivity |].
  eapply (descends_S (C:=Toy.collaborators) _ _ tt); [reflexivity | reflexivity | reflexivity |].
  eapply (descends_S (C:=Toy.collaborators) _ _ tt); [reflexivity | reflexivity | reflexivity |].
  apply descends_O.
Qed.

Lemma toy_descends_twice :
  descends (mkImage 4000 4000 tt) 2 (mkImage 2250 2250 tt).
Proof.
  eapply (descends_S (C:=Toy.collaborators) _ _ tt); [reflexivity | reflexivity | reflexivity |].
  eapply (descends_S (C:=Toy.collaborators) _ _ tt); [reflexivity | reflexivity | reflexivity |].
  apply descends_O.
Qed.

Lemma layout_resize_loop_witness :
  (exists events,
     trace (get_layout_from_image 0 Toy.agent 0%nat "eng"
              (Toy.world 100 100 (Some Toy.doc_ab))).2 =
       (trace (Toy.world 100 100 (Some Toy.doc_ab)) ++ events)%list /\
     count is_save events = 1%nat /\ count is_resize events = 0%nat)
  /\ (exists events,
        trace (get_layout_from_image 5 Toy.agent 0%nat "eng"
                 (Toy.world 4000 4000 (Some Toy.doc_ab))).2 =
          (trace (Toy.world 4000 4000 (Some Toy.doc_ab)) ++ events)%list /\
        count is_save events = 4%nat /\ count is_resize events = 3%nat)
  /\ (get_layout_from_image 2 Toy.agent 0%nat "eng"
        (Toy.world 4000 4000 (Some Toy.doc_ab))).1 = OutOfFuel
  /\ scaled_size (mkImage 4000 4000 tt) = (3000, 3000).
Proof.
  pose proof (layout_resize_loop Toy.agent 0%nat "eng"
                (Toy.world 100 100 (Some Toy.doc_ab)) (mkImage 100 100 tt) eq_refl)
    as (Hfit & _).
  pose proof (layout_resize_loop Toy.agent 0%nat "eng"
                (Toy.world 4000 4000 (Some Toy.doc_ab)) (mkImage 4000 4000 tt) eq_refl)
    as (_ & Hiter & Hrun & Hpending).
  split; [|split; [|split]].
  - apply (Hfit 0%nat (40064%N : @Bytes Toy.collaborators) eq_refl).
    discriminate.
  - apply (Hrun 5%nat 3%nat (mkImage 1687 1687 tt) (11383940%N : @Bytes Toy.collaborators)
             toy_descends eq_refl).
    + discriminate.
    + lia.
  - exact (Hpending 2%nat (mkImage 2250 2250 tt) (20250064%N : @Bytes Toy.collaborators)
             toy_descends_twice eq_refl eq_refl).
  - apply (Hiter 0%nat (PayloadStr (85333420%N : @Bytes Toy.collaborators)) tt
             (36000064%N : @Bytes Toy.collaborators) eq_refl eq_refl eq_refl).
Defined.

(** The size asked for can reach zero: a column one pixel wide. *)
Example scaled_size_thin : scaled_size (mkImage 1 7 tt) = (0, 5).
Proof. reflexivity. Qed.

(** The run on the large image, whole: three resizes, then the answer. *)
Example layout_large_image :
  (get_layout_from_image 5 Toy.agent 0%nat "eng"
     (Toy.world 4000 4000 (Some Toy.doc_ab))).1 =
    Return [ mkTextRegion (mkRectangle 0 0 1 1) (PStr "a") OCR_GPT4O;
             mkTextRegion (mkRectangle 1 1 2 2) (PStr "b") OCR_GPT4O ]
  /\ heap (get_layout_from_image 5 Toy.agent 0%nat "eng"
             (Toy.world 4000 4000 (Some Toy.doc_ab))).2 =
       [ mkImage 4000 4000 tt; mkImage 3000 3000 tt;
         mkImage 2250 2250 tt; mkImage 1687 1687 tt ].
Proof. split; reflexivity. Qed.

(** With a credential, the agent is built, and nothing is sent. *)
Example init_with_credential :
  __init__ {[ OPENAI_API_KEY := "sk-test" ]} (Toy.world 100 100 None) =
    (Return Toy.agent, Toy.world 100 100 None).
Proof.
  unfold __init__. rewrite lookup_singleton_eq.
  destruct (decide ("sk-test" ≠ "")) as [_|Hne]; [reflexivity|].
  destruct Hne. discriminate.
Qed.

(** * Further properties on the concrete instance *)

Lemma toy_refuses_empty_size : pil_refuses_empty_size.
Proof.
  intros img size Hsize. cbn. unfold Toy.resample.
  destruct (decide (0 < size.1 ∧ 0 < size.2)) as [[? ?]|_]; [lia | eauto].
Qed.

Lemma get_text_returns_content_witness :
  (get_text_from_image Toy.agent 0%nat "eng" (Toy.world 100 100 (Some "hello"))).1
    = Return "hello".
Proof.
  apply (get_text_returns_content Toy.agent 0%nat "eng" (Toy.world 100 100 (Some "hello"))
           (Toy.answer (Some "hello")) "hello");
    [apply toy_text_answer | apply toy_has_content | discriminate].
Defined.

Lemma get_text_effects_witness :
  exists events,
    (get_text_from_image Toy.agent 0%nat "eng" (Toy.world 4000 4000 None)).2
      = after (Toy.world 4000 4000 None) events /\
    count is_save events = 1%nat /\
    count is_resize events = 0%nat /\
    requests events =
      [EvCreate (self_client Toy.agent)
         (text_request Toy.agent (PayloadBytes (85333420%N : @Bytes Toy.collaborators)))].
Proof.
  exact (get_text_effects Toy.agent 0%nat "eng" (Toy.world 4000 4000 None)
           (mkImage 4000 4000 tt) eq_refl).
Defined.

Lemma layout_request_within_limit_witness :
  exists enc,
    self_client Toy.agent = self_client Toy.agent /\
    layout_request Toy.agent (PayloadStr (53420%N : @Bytes Toy.collaborators))
      = layout_request Toy.agent enc /\
    (payload_len enc <= LIMIT)%N.
Proof.
  apply (layout_request_within_limit 0 Toy.agent 0%nat "eng"
           (Toy.world 100 100 (Some Toy.doc_ab))
           [ EvSave 0%nat;
             EvLog INFO "Image size: {len(encoded_image) / 1024 / 1024:.2f} MB"
               (ArgSize (size_mb (PayloadStr (53420%N : @Bytes Toy.collaborators))));
             EvCreate (self_client Toy.agent)
               (layout_request Toy.agent (PayloadStr (53420%N : @Bytes Toy.collaborators)));
             EvLog INFO "OpenAI Response: {response}"
               (ArgResponse (Toy.answer (Some Toy.doc_ab))) ]
           (self_client Toy.agent)
           (layout_request Toy.agent (PayloadStr (53420%N : @Bytes Toy.collaborators)))).
  - reflexivity.
  - right. right. left. reflexivity.
Defined.

Lemma layout_terminates_witness :
  (get_layout_from_image 2 Toy.agent 0%nat "eng" (Toy.world 1 40000000 None)).1
    <> OutOfFuel.
Proof.
  apply (layout_terminates 2 Toy.agent 0%nat "eng" (Toy.world 1 40000000 None)
           (mkImage 1 40000000 tt) toy_refuses_empty_size eq_refl).
  simpl. lia.
Defined.

Lemma layout_regions_keyed_by_position_witness :
  bbox (mkTextRegion (mkRectangle 1 1 2 2) (PStr "b") (OCR_GPT4O (Collaborators := Toy.collaborators)))
    = square 1
  /\ source (mkTextRegion (mkRectangle 1 1 2 2) (PStr "b") OCR_GPT4O) = Toy.SRC_GPT4O.
Proof.
  destruct (layout_regions_keyed_by_position 0 Toy.agent 0%nat "eng"
              (Toy.world 100 100 (Some Toy.doc_ab))
              (get_layout_from_image 0 Toy.agent 0%nat "eng"
                 (Toy.world 100 100 (Some Toy.doc_ab))).2
              [ mkTextRegion (mkRectangle 0 0 1 1) (PStr "a") OCR_GPT4O;
                mkTextRegion (mkRectangle 1 1 2 2) (PStr "b") OCR_GPT4O ]
              eq_refl) as [Hkey _].
  exact (Hkey 1%nat _ eq_refl).
Defined.

Lemma descends_geometric_witness :
  0 <= 1687 /\ 4 ^ 3 * 1687 <= 3 ^ 3 * 4000 /\ 0 <= 1687 /\ 4 ^ 3 * 1687 <= 3 ^ 3 * 4000.
Proof.
  apply (descends_geometric (C:=Toy.collaborators) (mkImage 4000 4000 tt)
           (mkImage 1687 1687 tt) 3 toy_descends);
    cbn; lia.
Defined.

Lemma service_error_propagates_witness :
  (get_text_from_image Toy.agent 0%nat "eng"
     (Toy.world_of 100 100 (inl (ExternalError "openai" "APIConnectionError")))).1
    = Raise (ExternalError "openai" "APIConnectionError")
  /\ (get_layout_from_image 0 Toy.agent 0%nat "eng"
        (Toy.world_of 100 100 (inl (ExternalError "openai" "APIConnectionError")))).1
       = Raise (ExternalError "openai" "APIConnectionError").
Proof.
  destruct (service_error_propagates 0 Toy.agent 0%nat "eng"
              (Toy.world_of 100 100 (inl (ExternalError "openai" "APIConnectionError")))
              (ExternalError "openai" "APIConnectionError")) as [Htext Hlayout].
  split.
  - now rewrite (Htext (mkImage 100 100 tt) (40064%N : @Bytes Toy.collaborators)
                   eq_refl eq_refl eq_refl).
  - now rewrite (Hlayout _ _ eq_refl eq_refl).
Defined.

Lemma json_error_propagates_witness :
  (get_layout_from_image 0 Toy.agent 0%nat "eng" (Toy.world 100 100 (Some "oops"))).1
    = Raise (ExternalError "json" "JSONDecodeError: Expecting value").
Proof.
  apply (json_error_propagates 0 Toy.agent 0%nat "eng" (Toy.world 100 100 (Some "oops"))
           (Toy.answer (Some "oops")) "oops");
    [apply toy_layout_answer | apply toy_has_content | discriminate | reflexivity].
Defined.

Lemma no_choice_raises_index_error_witness :
  (get_text_from_image Toy.agent 0%nat "eng"
     (Toy.world_of 100 100 (inr {| choices := [] |}))).1
    = Raise (IndexError "list index out of range")
  /\ (get_layout_from_image 0 Toy.agent 0%nat "eng"
        (Toy.world_of 100 100 (inr {| choices := [] |}))).1
       = Raise (IndexError "list index out of range").
Proof.
  destruct (no_choice_raises_index_error 0 Toy.agent 0%nat "eng"
              (Toy.world_of 100 100 (inr {| choices := [] |})) {| choices := [] |} eq_refl)
    as [Htext Hlayout].
  split.
  - apply Htext. eexists _, _. split; reflexivity.
  - apply Hlayout. eexists _, _. split; reflexivity.
Defined.

Lemma save_error_propagates_witness :
  get_layout_from_image 3 Toy.agent 0%nat "eng" (Toy.world 0 0 None)
    = (Raise (ExternalError "PIL" "cannot write empty image"),
       after (Toy.world 0 0 None) [EvSave 0%nat]).
Proof.
  apply (save_error_propagates 3 Toy.agent 0%nat "eng" (Toy.world 0 0 None)
           (mkImage 0 0 tt) (ExternalError "PIL" "cannot write empty image")
           eq_refl eq_refl).
Defined.

Lemma resize_error_propagates_witness :
  exists events,
    get_layout_from_image 1 Toy.agent 0%nat "eng" (Toy.world 1 40000000 None)
      = (Raise (ExternalError "PIL" "height and width must be > 0"),
         after (Toy.world 1 40000000 None) events) /\
    requests events = [].
Proof.
  apply (resize_error_propagates 0 Toy.agent 0%nat "eng" (Toy.world 1 40000000 None)
           (mkImage 1 40000000 tt) (160000064%N : @Bytes Toy.collaborators)
           (ExternalError "PIL" "height and width must be > 0")
           eq_refl eq_refl eq_refl eq_refl).
Defined.

Lemma shape_errors_are_logged_witness :
  last (trace (get_layout_from_image 0 Toy.agent 0%nat "eng"
                 (Toy.world 100 100 (Some "[]"))).2)
    = Some (EvLog ERROR
              "Expected a dictionary object for the response content. Got: {paragraph_list}"
              (ArgValue (PList []))).
Proof.
  destruct (shape_errors_are_logged 0 Toy.agent 0%nat "eng" (Toy.world 100 100 (Some "[]"))
              (after (Toy.world 100 100 (Some "[]")) [EvSave 0%nat])
              (PayloadStr (53420%N : @Bytes Toy.collaborators))
              (Toy.answer (Some "[]")) (Some "[]") eq_refl eq_refl
              (toy_has_content (Some "[]"))) as [_ Hparsed].
  destruct (Hparsed "[]" (PList [])) as [Hnot_dict _];
    [reflexivity | discriminate | reflexivity |].
  rewrite (Hnot_dict eq_refl). reflexivity.
Defined.
